(** * The playback controller of web-scrobbler

    A shallow embedding of [src/background/object/controller.ts]: the
    per-tab controller that consumes connector states, detects song
    changes, drives the playback and replay-detection timers and
    aggregates the results of the scrobblers.

    The controller is a class with mutable fields; here every method is
    a function on an explicit [Controller] record.  Calls to listeners
    and collaborators ([onModeChanged], [ScrobbleManager.scrobble],
    [ScrobbleStorage.addSong], ...) are recorded, in order, in the
    [effects] field.  A thrown [Error] (or a rejected promise) is the
    [Thrown] outcome of an [Action]. *)

From Stdlib Require Import ZArith List Bool String Lia.
Import ListNotations.

Local Open Scope string_scope.
Local Open Scope list_scope.
Local Open Scope Z_scope.

(** ** Values shared with the collaborators *)

(** [ControllerMode] (background/object/controller-mode is not part of
    the sources): the modes the controller sets. *)
Inductive ControllerMode : Type :=
| Base | Disabled | Err | Ignored | Loading
| Playing | Scrobbled | Skipped | Unknown.

(** [export enum ControllerEvent]. *)
Inductive ControllerEvent : Type :=
| Reset | SongNowPlaying | SongUnrecognized.

(** [LoveStatus] of background/object/song; the controller only hands
    it on. *)
Inductive LoveStatus : Type := Loved | Unloved.

(** [LogType] of background/util/util: ['log'], the default, and
    ['warn']. *)
Inductive LogType : Type := LogLog | LogWarn.

(** Modelled from the spec: the result type of [ApiCallResult]
    (src/background/scrobbler/api-call-result is not part of the
    sources).  "SubmissionResult: per-backend outcome - backend
    identifier + one of Ok, Ignore, Error". *)
Inductive ApiCallResultType : Type :=
| RESULT_OK | RESULT_IGNORE | RESULT_ERROR.

Definition ApiCallResultType_eqb (a b : ApiCallResultType) : bool :=
  match a, b with
  | RESULT_OK, RESULT_OK => true
  | RESULT_IGNORE, RESULT_IGNORE => true
  | RESULT_ERROR, RESULT_ERROR => true
  | _, _ => false
  end.

Record ApiCallResult : Type := mkResult {
  getScrobblerId : string;
  resultType : ApiCallResultType;
}.

(** [result.is(type)]. *)
Definition result_is (r : ApiCallResult) (t : ApiCallResultType) : bool :=
  ApiCallResultType_eqb (resultType r) t.

(** Modelled from the spec: [isAnyResult] of background/util/util (not
    part of the sources): "if any backend result is Ok". *)
Definition isAnyResult (results : list ApiCallResult)
    (t : ApiCallResultType) : bool :=
  existsb (fun r => result_is r t) results.

(** ** Connector state ([ParsedSongInfo]) *)

(** Modelled from the spec: "Reading { artist, track, album, uniqueId,
    duration: number|null, currentTime: number, isPlaying: boolean,
    artworkUrl: string|null, isPodcast: boolean }".  The field names are
    those the controller uses ([uniqueID], [trackArt]).  Times are whole
    seconds; [None] is [null]. *)
Record ParsedSongInfo : Type := mkState {
  artist : option string;
  track : option string;
  album : option string;
  uniqueID : option string;
  duration : option Z;
  currentTime : option Z;
  isPlaying : bool;
  trackArt : option string;
  isPodcast : bool;
}.

(** [ParsedSongField]: the keys of [ParsedSongInfo]. *)
Inductive ParsedSongField : Type :=
| F_artist | F_track | F_album | F_uniqueID | F_duration
| F_currentTime | F_isPlaying | F_trackArt | F_isPodcast.

(** The value read by [state[field]]. *)
Inductive JsValue : Type :=
| JNull
| JString (s : string)
| JNumber (n : Z)
| JBoolean (b : bool).

Definition js_of_string (o : option string) : JsValue :=
  match o with Some s => JString s | None => JNull end.

Definition js_of_number (o : option Z) : JsValue :=
  match o with Some n => JNumber n | None => JNull end.

Definition getField (f : ParsedSongField) (st : ParsedSongInfo) : JsValue :=
  match f with
  | F_artist => js_of_string (artist st)
  | F_track => js_of_string (track st)
  | F_album => js_of_string (album st)
  | F_uniqueID => js_of_string (uniqueID st)
  | F_duration => js_of_number (duration st)
  | F_currentTime => js_of_number (currentTime st)
  | F_isPlaying => JBoolean (isPlaying st)
  | F_trackArt => js_of_string (trackArt st)
  | F_isPodcast => JBoolean (isPodcast st)
  end.

(** [a === b] on the values above. *)
Definition js_strict_eq (a b : JsValue) : bool :=
  match a, b with
  | JNull, JNull => true
  | JString s, JString t => String.eqb s t
  | JNumber n, JNumber m => Z.eqb n m
  | JBoolean x, JBoolean y => Bool.eqb x y
  | _, _ => false
  end.

(** [fieldsToCheckSongChange]. *)
Definition fieldsToCheckSongChange : list ParsedSongField :=
  [F_artist; F_track; F_album; F_uniqueID].

(** ** The song ([Song]) *)

(** Modelled from the spec: the flags of a Track, "isValid,
    isMarkedAsPlaying, isReadyToSubmit, isSubmitted, isSkipped,
    isReplaying", under the names the controller uses. *)
Record SongFlags : Type := mkFlags {
  isValid_flag : bool;
  isMarkedAsPlaying : bool;
  isReadyToScrobble : bool;
  isScrobbled : bool;
  isSkipped : bool;
  isReplaying : bool;
}.

(** Modelled from the spec: [Song] of background/object/song (not part
    of the sources): "parsed fields (mirroring Reading) plus mutable
    flags", and the love status set by [setLoveStatus]. *)
Record Song : Type := mkSong {
  parsed : ParsedSongInfo;
  flags : SongFlags;
  userloved : option LoveStatus;
}.

Definition noFlags : SongFlags := mkFlags false false false false false false.

(** Modelled from the spec: [new Song(state)], a Track with the fields
    of the reading and no flag set. *)
Definition Song_new (st : ParsedSongInfo) : Song := mkSong st noFlags None.

(** Modelled from the spec: [song.isValid()], the Track's [isValid]
    flag. *)
Definition isValid (s : Song) : bool := isValid_flag (flags s).

(** Modelled from the spec: [song.getDuration()], the "last known
    duration" of the Track. *)
Definition getDuration (s : Song) : option Z := duration (parsed s).

(** Modelled from the spec: [song.setLoveStatus(status, { force: true })]
    records the status. *)
Definition setLoveStatus (ls : LoveStatus) (s : Song) : Song :=
  mkSong (parsed s) (flags s) (Some ls).

Definition set_flags (f : SongFlags -> SongFlags) (s : Song) : Song :=
  mkSong (parsed s) (f (flags s)) (userloved s).

Definition set_parsed (f : ParsedSongInfo -> ParsedSongInfo) (s : Song) : Song :=
  mkSong (f (parsed s)) (flags s) (userloved s).

Definition set_isMarkedAsPlaying (b : bool) : Song -> Song :=
  set_flags (fun f => mkFlags (isValid_flag f) b (isReadyToScrobble f)
                        (isScrobbled f) (isSkipped f) (isReplaying f)).

Definition set_isReadyToScrobble (b : bool) : Song -> Song :=
  set_flags (fun f => mkFlags (isValid_flag f) (isMarkedAsPlaying f) b
                        (isScrobbled f) (isSkipped f) (isReplaying f)).

Definition set_isScrobbled (b : bool) : Song -> Song :=
  set_flags (fun f => mkFlags (isValid_flag f) (isMarkedAsPlaying f)
                        (isReadyToScrobble f) b (isSkipped f) (isReplaying f)).

Definition set_isSkipped (b : bool) : Song -> Song :=
  set_flags (fun f => mkFlags (isValid_flag f) (isMarkedAsPlaying f)
                        (isReadyToScrobble f) (isScrobbled f) b (isReplaying f)).

Definition set_isReplaying (b : bool) : Song -> Song :=
  set_flags (fun f => mkFlags (isValid_flag f) (isMarkedAsPlaying f)
                        (isReadyToScrobble f) (isScrobbled f) (isSkipped f) b).

Definition set_currentTime (v : option Z) : Song -> Song :=
  set_parsed (fun p => mkState (artist p) (track p) (album p) (uniqueID p)
                         (duration p) v (isPlaying p) (trackArt p) (isPodcast p)).

Definition set_isPlaying (v : bool) : Song -> Song :=
  set_parsed (fun p => mkState (artist p) (track p) (album p) (uniqueID p)
                         (duration p) (currentTime p) v (trackArt p) (isPodcast p)).

Definition set_trackArt (v : option string) : Song -> Song :=
  set_parsed (fun p => mkState (artist p) (track p) (album p) (uniqueID p)
                         (duration p) (currentTime p) (isPlaying p) v (isPodcast p)).

Definition set_duration (v : option Z) : Song -> Song :=
  set_parsed (fun p => mkState (artist p) (track p) (album p) (uniqueID p)
                         v (currentTime p) (isPlaying p) (trackArt p) (isPodcast p)).

(** [EditedSongInfo] of background/object/song: the fields a user can
    edit; the controller only hands it on. *)
Record EditedSongInfo : Type := mkEdit {
  edit_artist : option string;
  edit_track : option string;
  edit_album : option string;
}.

(** ** Effects on listeners and collaborators *)

Inductive Effect : Type :=
| OnModeChanged (m : ControllerMode)
| OnSongUpdated
| OnControllerEvent (e : ControllerEvent)
| DebugLog (text : string) (logType : LogType)
| PipelineProcess (s : Song)
| SendNowPlaying (info : Song)
| Scrobble (info : Song)
| ToggleLove (info : Song) (ls : LoveStatus)
| StorageAddSong (info : Song) (scrobblerIds : list string)
| SavedEditsRemove (s : Song)
| SavedEditsSave (s : Song) (data : EditedSongInfo).

Definition isSendNowPlaying (e : Effect) : bool :=
  match e with SendNowPlaying _ => true | _ => false end.

Definition isEvent (ev : ControllerEvent) (e : Effect) : bool :=
  match e, ev with
  | OnControllerEvent Reset, Reset => true
  | OnControllerEvent SongNowPlaying, SongNowPlaying => true
  | OnControllerEvent SongUnrecognized, SongUnrecognized => true
  | _, _ => false
  end.

Definition isStorageAddSong (e : Effect) : bool :=
  match e with StorageAddSong _ _ => true | _ => false end.

(** Number of effects of a kind in a history. *)
Definition count (p : Effect -> bool) (h : list Effect) : nat :=
  List.length (filter p h).

(** ** The timer interface *)

(** [Timer] of background/object/timer is not part of the sources: the
    controller is written against its interface.  [timer_elapse] and
    [timer_fire] are what happens to a timer outside the controller's
    calls: time passes, and the scheduled callback is run. *)
Class TimerOps (T : Type) : Type := {
  timer_new : T;
  timer_start : T -> T;
  timer_pause : T -> T;
  timer_resume : T -> T;
  timer_update : option Z -> T -> T;
  timer_reset : T -> T;
  timer_isExpired : T -> bool;
  timer_getElapsed : T -> Z;
  timer_elapse : N -> T -> T;
  timer_fire : T -> T;
}.

(** A timer that was only paused, resumed and left to run since: no
    [update], no [reset], no [start]. *)
Inductive drifts {T : Type} {timerOps : TimerOps T} : T -> T -> Prop :=
| drifts_refl (t : T) : drifts t t
| drifts_pause (t t' : T) : drifts t t' -> drifts t (timer_pause t')
| drifts_resume (t t' : T) : drifts t t' -> drifts t (timer_resume t')
| drifts_fire (t t' : T) : drifts t t' -> drifts t (timer_fire t')
| drifts_elapse (t t' : T) (seconds : N) :
    drifts t t' -> drifts t (timer_elapse seconds t').

(** An expired timer stays expired until it is updated or reset. *)
Definition expiry_stable (T : Type) {timerOps : TimerOps T} : Prop :=
  forall t : T,
    timer_isExpired t = true ->
    timer_isExpired (timer_pause t) = true
    /\ timer_isExpired (timer_resume t) = true
    /\ timer_isExpired (timer_fire t) = true
    /\ forall seconds, timer_isExpired (timer_elapse seconds t) = true.

(** ** The collaborators *)

(** What the controller imports and calls but does not define.  The
    functions that answer a call receive the history of effects so far,
    so that two calls need not answer alike. *)
Record Collaborators : Type := mkCollaborators {
  (** [getOption(SCROBBLE_PERCENT)] *)
  option_SCROBBLE_PERCENT : Z;
  (** [getOption(SCROBBLE_PODCASTS)] *)
  option_SCROBBLE_PODCASTS : bool;
  (** [getSecondsToScrobble(duration, percent)] of util; -1 when the
      song never qualifies *)
  util_getSecondsToScrobble : option Z -> Z -> Z;
  (** [isStateEmpty(state)] of util *)
  util_isStateEmpty : ParsedSongInfo -> bool;
  (** [areAllResults(results, type)] of util *)
  util_areAllResults : list ApiCallResult -> ApiCallResultType -> bool;
  (** [pipeline.process(song)]: the song as the pipeline leaves it *)
  pipeline_process : list Effect -> Song -> Song;
  (** [song.resetInfo()] and [song.resetData()] *)
  song_resetInfo : Song -> Song;
  song_resetData : Song -> Song;
  (** [ScrobbleManager.sendNowPlaying(info)], [.scrobble(info)] *)
  manager_sendNowPlaying : list Effect -> Song -> list ApiCallResult;
  manager_scrobble : list Effect -> Song -> list ApiCallResult;
  (** whether [ScrobbleManager.toggleLove(info, status)] is rejected *)
  manager_toggleLove_fails : list Effect -> Song -> LoveStatus -> bool;
  (** the ids of [ScrobbleManager.getBoundScrobblers()] *)
  manager_boundScrobblerIds : list Effect -> list string;
}.

(** [areAllResults] on a list with at least one result: "every result
    is" of the given type.  (What it answers on no result at all is left
    to the implementation.) *)
Definition areAllResults_law (W : Collaborators) : Prop :=
  forall r rs t,
    util_areAllResults W (r :: rs) t
    = forallb (fun x => result_is x t) (r :: rs).

(** ** Messages *)

(** The texts of the debug messages, without the values spliced in
    them ([Tab ${this.tabId}: ], the song, a number of seconds), and of
    the errors thrown. *)
Definition log_created : string := "Created controller".
Definition log_removed : string := "Remove controller".
Definition log_empty_state : string := "Received empty state - resetting".
Definition log_not_enough_information : string :=
  "State from connector doesn't contain enough information about the playing track".
Definition log_new_song : string := "New song detected".
Definition log_processed : string := "Song finished processing".
Definition log_unprocessed : string := "Song unprocessed".
Definition log_clearing_timer : string :=
  "Clearing playback timer destination time".
Definition log_isPlaying_changed : string := "isPlaying state changed".
Definition log_update_duration : string := "Update duration".
Definition log_expired_timers : string := "Attempt to update expired timers".
Definition log_scrobbled_in : string :=
  "The song will be scrobbled in some seconds".
Definition log_repeated_in : string :=
  "The song will be repeated in some seconds".
Definition log_too_short : string := "The song is too short to scrobble".
Definition log_ready_to_scrobble : string := "Mark song as ready to scrobble".
Definition log_replaying : string := "Mark song as replaying".
Definition log_now_playing : string := "Song set as now playing".
Definition log_not_now_playing : string := "Song isn't set as now playing".
Definition log_scrobbled : string := "Scrobbled successfully".
Definition log_ignored : string := "Song is ignored by service".
Definition log_scrobbling_failed : string := "Scrobbling failed".
Definition error_no_song : string := "No song is now playing".
Definition error_scrobbled_song : string :=
  "Unable to set user data for scrobbled song".
Definition error_no_valid_song : string := "No valid song is now playing".

(** Stands for whatever [ScrobbleManager.toggleLove] rejects with. *)
Definition error_toggleLove : string := "ScrobbleManager.toggleLove failed".

(** ** The controller's fields *)

Record Controller (T : Type) : Type := mkController {
  mode : ControllerMode;
  tabId : Z;
  currentSong : option Song;
  playbackTimer : T;
  replayDetectionTimer : T;
  isReplayingSong : bool;
  isControllerEnabled : bool;
  shouldScrobblePodcasts : bool;
  (** everything the controller did to its listeners and collaborators,
      oldest first *)
  effects : list Effect;
}.

Arguments mkController {T}.
Arguments mode {T}.
Arguments tabId {T}.
Arguments currentSong {T}.
Arguments playbackTimer {T}.
Arguments replayDetectionTimer {T}.
Arguments isReplayingSong {T}.
Arguments isControllerEnabled {T}.
Arguments shouldScrobblePodcasts {T}.
Arguments effects {T}.

Inductive Error : Type :=
| Error_ (message : string)
| TypeError.

(** How a method ends: it returns, or it throws (an async method: its
    promise is rejected); either way the fields are as it left them. *)
Inductive Outcome (T : Type) : Type :=
| Returned (c : Controller T)
| Thrown (e : Error) (c : Controller T).

Arguments Returned {T}.
Arguments Thrown {T}.

Definition state_of {T} (o : Outcome T) : Controller T :=
  match o with Returned c => c | Thrown _ c => c end.

Definition Action (T : Type) : Type := Controller T -> Outcome T.

Definition ret {T} : Action T := fun c => Returned c.

Definition throw {T} (e : Error) : Action T := fun c => Thrown e c.

Definition lift {T} (f : Controller T -> Controller T) : Action T :=
  fun c => Returned (f c).

(** [a; b]: [b] runs unless [a] threw. *)
Definition andThen {T} (a b : Action T) : Action T :=
  fun c => match a c with
           | Returned c' => b c'
           | Thrown e c' => Thrown e c'
           end.

Notation "a >> b" := (andThen a b) (at level 61, left associativity).

(** A call of an async method that is not awaited: a rejection of its
    promise does not reach the caller. *)
Definition detached {T} (a : Action T) : Action T :=
  fun c => Returned (state_of (a c)).

Section Fields.
Context {T : Type}.

Definition with_mode (m : ControllerMode) (c : Controller T) :=
  mkController m (tabId c) (currentSong c) (playbackTimer c)
    (replayDetectionTimer c) (isReplayingSong c) (isControllerEnabled c)
    (shouldScrobblePodcasts c) (effects c).

Definition with_currentSong (s : option Song) (c : Controller T) :=
  mkController (mode c) (tabId c) s (playbackTimer c)
    (replayDetectionTimer c) (isReplayingSong c) (isControllerEnabled c)
    (shouldScrobblePodcasts c) (effects c).

Definition on_playbackTimer (f : T -> T) (c : Controller T) :=
  mkController (mode c) (tabId c) (currentSong c) (f (playbackTimer c))
    (replayDetectionTimer c) (isReplayingSong c) (isControllerEnabled c)
    (shouldScrobblePodcasts c) (effects c).

Definition on_replayDetectionTimer (f : T -> T) (c : Controller T) :=
  mkController (mode c) (tabId c) (currentSong c) (playbackTimer c)
    (f (replayDetectionTimer c)) (isReplayingSong c) (isControllerEnabled c)
    (shouldScrobblePodcasts c) (effects c).

Definition with_isReplayingSong (b : bool) (c : Controller T) :=
  mkController (mode c) (tabId c) (currentSong c) (playbackTimer c)
    (replayDetectionTimer c) b (isControllerEnabled c)
    (shouldScrobblePodcasts c) (effects c).

Definition with_isControllerEnabled (b : bool) (c : Controller T) :=
  mkController (mode c) (tabId c) (currentSong c) (playbackTimer c)
    (replayDetectionTimer c) (isReplayingSong c) b
    (shouldScrobblePodcasts c) (effects c).

(** Record an effect. *)
Definition emit (e : Effect) (c : Controller T) :=
  mkController (mode c) (tabId c) (currentSong c) (playbackTimer c)
    (replayDetectionTimer c) (isReplayingSong c) (isControllerEnabled c)
    (shouldScrobblePodcasts c) (effects c ++ [e]).

(** [this.currentSong.(...)]: a [TypeError] when there is no song. *)
Definition withSong (k : Song -> Action T) : Action T :=
  fun c => match currentSong c with
           | Some s => k s c
           | None => Thrown TypeError c
           end.

(** An assignment to a field of [this.currentSong]. *)
Definition modifySong (f : Song -> Song) : Action T :=
  withSong (fun s => lift (with_currentSong (Some (f s)))).

(** The two timers, as a pair. *)
Definition timers (c : Controller T) : T * T :=
  (playbackTimer c, replayDetectionTimer c).
End Fields.

(** A number used as a condition: [null] and [0] are falsy. *)
Definition truthy (n : option Z) : bool :=
  match n with
  | Some d => negb (d =? 0)
  | None => false
  end.

(** [a !== b] on numbers that may be [null]. *)
Definition number_differs (a b : option Z) : bool :=
  negb (js_strict_eq (js_of_number a) (js_of_number b)).

(** The loop of [isSongChanged]. *)
Fixpoint anyFieldDiffers (fields : list ParsedSongField)
    (newState old : ParsedSongInfo) : bool :=
  match fields with
  | [] => false
  | field :: rest =>
      if negb (js_strict_eq (getField field newState) (getField field old))
      then true
      else anyFieldDiffers rest newState old
  end.

(** [isNeedToUpdateDuration], given the current song. *)
Definition isNeedToUpdateDuration (newState : ParsedSongInfo) (s : Song) : bool :=
  truthy (duration newState)
  && number_differs (duration (parsed s)) (duration newState).

(** The inputs of a controller: connector states, timer callbacks, the
    passing of time and the commands of its owner. *)
Inductive Input : Type :=
| StateChange (state : ParsedSongInfo)
| PlaybackTimerExpired
| ReplayTimerExpired
| TimeElapsed (seconds : N)
| ResetSongData
| SkipCurrentSong
| SetUserSongData (data : EditedSongInfo)
| ToggleLoveStatus (loveStatus : LoveStatus)
| SetEnabled (flag : bool)
| Finish.

(** ** The methods of the controller *)

Section Methods.
Context {T : Type} {timerOps : TimerOps T} (W : Collaborators).

(** [constructor(tabId, connector, isEnabled)]. *)
Definition Controller_new (tab : Z) (isEnabled : bool) : Controller T :=
  emit (DebugLog log_created LogLog)
    (mkController (if isEnabled then Base else Disabled) tab None
       timer_new timer_new false isEnabled (option_SCROBBLE_PODCASTS W) []).

(** The text of a message is kept without the values spliced in it. *)
Definition debugLog (text : string) (logType : LogType) : Action T :=
  lift (emit (DebugLog text logType)).

Definition onSongUpdated : Action T := lift (emit OnSongUpdated).

Definition onModeChanged : Action T :=
  fun c => Returned (emit (OnModeChanged (mode c)) c).

Definition setMode (m : ControllerMode) : Action T :=
  lift (with_mode m) >> onModeChanged.

Definition dispatchEvent (event : ControllerEvent) : Action T :=
  lift (emit (OnControllerEvent event)).

Definition getSecondsToScrobble (d : option Z) : Z :=
  util_getSecondsToScrobble W d (option_SCROBBLE_PERCENT W).

Definition resetState : Action T :=
  dispatchEvent Reset
  >> lift (on_playbackTimer timer_reset)
  >> lift (on_replayDetectionTimer timer_reset)
  >> lift (with_currentSong None).

Definition reset : Action T := resetState >> setMode Base.

Definition assertSongIsPlaying : Action T :=
  fun c => match currentSong c with
           | Some _ => Returned c
           | None => Thrown (Error_ error_no_song) c
           end.

Definition isSongChanged (newState : ParsedSongInfo) (c : Controller T) : bool :=
  match currentSong c with
  | None => true
  | Some s => anyFieldDiffers fieldsToCheckSongChange newState (parsed s)
  end.

(** [scrobblerIds] is [None] when the argument is left out. *)
Definition addSongToScrobbleStorage (scrobblerIds : option (list string))
    : Action T :=
  fun c =>
    let ids := match scrobblerIds with
               | Some ids => ids
               | None => manager_boundScrobblerIds W (effects c)
               end in
    withSong (fun s => lift (emit (StorageAddSong s ids))) c.

Definition isNeedToAddSongToScrobbleStorage (c : Controller T) : bool :=
  match currentSong c with
  | Some s =>
      if negb (isValid s) then
        let secondsToScrobble := getSecondsToScrobble (getDuration s) in
        if negb (secondsToScrobble =? -1)
        then secondsToScrobble <=? timer_getElapsed (playbackTimer c)
        else false
      else false
  | None => false
  end.

Definition updateTimers (d : option Z) : Action T :=
  fun c =>
    if timer_isExpired (playbackTimer c) then
      debugLog log_expired_timers LogWarn c
    else
      let secondsToScrobble := getSecondsToScrobble d in
      if negb (secondsToScrobble =? -1) then
        (lift (on_playbackTimer (timer_update (Some secondsToScrobble)))
         >> lift (on_replayDetectionTimer (timer_update d))
         >> debugLog log_scrobbled_in LogLog
         >> debugLog log_repeated_in LogLog) c
      else
        debugLog log_too_short LogLog c.

Definition updateSongDuration (d : option Z) : Action T :=
  debugLog log_update_duration LogLog
  >> modifySong (set_duration d)
  >> withSong (fun s => if isValid s then updateTimers d else ret).

(** [setSongNowPlaying] up to its [await]: the flag is set and the
    request is sent. *)
Definition setSongNowPlaying_sent : Action T :=
  modifySong (set_isMarkedAsPlaying true)
  >> withSong (fun s => lift (emit (SendNowPlaying s))).

(** The results that the request sent last brings back. *)
Definition nowPlayingResults (c : Controller T) : list ApiCallResult :=
  match currentSong c with
  | Some s => manager_sendNowPlaying W (effects c) s
  | None => []
  end.

(** [setSongNowPlaying] from its [await] on. *)
Definition setSongNowPlaying_resumed (results : list ApiCallResult) : Action T :=
  (if isAnyResult results RESULT_OK
   then debugLog log_now_playing LogLog >> setMode Playing
   else debugLog log_not_now_playing LogLog >> setMode Err)
  >> dispatchEvent SongNowPlaying.

(** [this.setSongNowPlaying(); rest]: the call is never awaited, so
    [rest], the remainder of the caller, runs when [setSongNowPlaying]
    reaches its [await], and before it resumes. *)
Definition setSongNowPlaying_then (rest : Action T) : Action T :=
  fun c => match setSongNowPlaying_sent c with
           | Returned c1 =>
               (rest >> detached (setSongNowPlaying_resumed (nowPlayingResults c1))) c1
           | Thrown _ c1 => rest c1
           end.

Definition setSongNowPlaying : Action T := setSongNowPlaying_then ret.

(** The song [s] as the pipeline run that [processSong] starts in [c]
    leaves it. *)
Definition pipelined (c : Controller T) (s : Song) : Song :=
  pipeline_process W
    (effects c ++ [OnModeChanged Loading; PipelineProcess s]) s.

Definition setSongNotRecognized : Action T :=
  setMode Unknown >> dispatchEvent SongUnrecognized.

Definition skipCurrentSong : Action T :=
  assertSongIsPlaying
  >> setMode Skipped
  >> modifySong (set_isSkipped true)
  >> onSongUpdated.

Definition processSong : Action T :=
  setMode Loading
  >> withSong (fun s c =>
       let c := emit (PipelineProcess s) c in
       Returned (with_currentSong (Some (pipeline_process W (effects c) s)) c))
  >> withSong (fun _ => debugLog log_processed LogLog)
  >> withSong (fun s =>
       if isValid s then
         modifySong (set_isMarkedAsPlaying false)
         >> withSong (fun s => updateTimers (getDuration s))
         >> (fun c =>
               withSong (fun s =>
                 if negb (shouldScrobblePodcasts c) && isPodcast (parsed s)
                 then skipCurrentSong
                 else if isPlaying (parsed s) then
                   if negb (timer_isExpired (playbackTimer c))
                   then setSongNowPlaying_then onSongUpdated
                   else dispatchEvent SongNowPlaying >> onSongUpdated
                 else setMode Base >> onSongUpdated) c)
       else
         setSongNotRecognized >> onSongUpdated).

Definition unprocessSong : Action T :=
  withSong (fun _ => debugLog log_unprocessed LogLog)
  >> debugLog log_clearing_timer LogLog
  >> modifySong (song_resetData W)
  >> lift (on_playbackTimer (timer_update None))
  >> lift (on_replayDetectionTimer (timer_update None)).

Definition onPlayingStateChanged (value : bool) : Action T :=
  debugLog log_isPlaying_changed LogLog
  >> if value then
       lift (on_playbackTimer timer_resume)
       >> lift (on_replayDetectionTimer timer_resume)
       >> withSong (fun s =>
            if negb (isMarkedAsPlaying (flags s)) && isValid s
            then setSongNowPlaying
            else fun c => setMode (mode c) c)
     else
       lift (on_playbackTimer timer_pause)
       >> lift (on_replayDetectionTimer timer_pause).

Definition scrobbleSong : Action T :=
  withSong (fun s c =>
    let c := emit (Scrobble s) c in
    let results := manager_scrobble W (effects c) s in
    let failedScrobblerIds :=
      map getScrobblerId
        (filter (fun result => negb (result_is result RESULT_OK)) results) in
    let isAnyOkResult :=
      (List.length failedScrobblerIds <? List.length results)%nat in
    ((if isAnyOkResult then
        debugLog log_scrobbled LogLog
        >> modifySong (set_isScrobbled true)
        >> setMode Scrobbled
        >> onSongUpdated
      else if util_areAllResults W results RESULT_IGNORE then
        debugLog log_ignored LogLog
        >> setMode Ignored
      else
        debugLog log_scrobbling_failed LogWarn
        >> setMode Err)
     >> (if (0 <? List.length failedScrobblerIds)%nat
         then detached (addSongToScrobbleStorage (Some failedScrobblerIds))
         else ret)) c).

Definition onPlaybackTimerExpired : Action T :=
  debugLog log_ready_to_scrobble LogLog
  >> modifySong (set_isReadyToScrobble true)
  >> withSong (fun s =>
       if isSkipped (flags s) then ret else detached scrobbleSong).

Definition onReplayTimerExpired : Action T :=
  debugLog log_replaying LogLog
  >> lift (with_isReplayingSong true).

Definition processEmptyState (state : ParsedSongInfo) : Action T :=
  (fun c =>
     match currentSong c with
     | Some _ =>
         (debugLog log_empty_state LogLog
          >> (fun c => if isNeedToAddSongToScrobbleStorage c
                       then addSongToScrobbleStorage None c
                       else Returned c)
          >> reset) c
     | None => Returned c
     end)
  >> (if isPlaying state
      then debugLog log_not_enough_information LogWarn
      else ret).

Definition processNewState (state : ParsedSongInfo) : Action T :=
  resetState
  >> lift (with_currentSong (Some (Song_new state)))
  >> (fun c => modifySong (set_isReplaying (isReplayingSong c)) c)
  >> debugLog log_new_song LogLog
  >> lift (on_playbackTimer timer_start)
  >> lift (on_replayDetectionTimer timer_start)
  >> lift (with_isReplayingSong false)
  >> (if negb (isPlaying state)
      then lift (on_playbackTimer timer_pause)
           >> lift (on_replayDetectionTimer timer_pause)
      else ret).

Definition processCurrentState (newState : ParsedSongInfo) : Action T :=
  withSong (fun s =>
    if isSkipped (flags s) then ret
    else
      let isPlayingStateChanged :=
        negb (Bool.eqb (isPlaying (parsed s)) (isPlaying newState)) in
      modifySong (set_currentTime (currentTime newState))
      >> modifySong (set_isPlaying (isPlaying newState))
      >> modifySong (set_trackArt (trackArt newState))
      >> withSong (fun s =>
           if isNeedToUpdateDuration newState s
           then updateSongDuration (duration newState)
           else ret)
      >> (if isPlayingStateChanged
          then onPlayingStateChanged (isPlaying newState)
          else ret)).

Definition processStateChange (state : ParsedSongInfo) : Action T :=
  fun c =>
    if negb (isControllerEnabled c) then Returned c
    else if util_isStateEmpty W state then processEmptyState state c
    else
      let isSongChanged := isSongChanged state c in
      if isSongChanged || isReplayingSong c then
        if isPlaying state then
          ((fun c => if isNeedToAddSongToScrobbleStorage c
                     then addSongToScrobbleStorage None c
                     else Returned c)
           >> processNewState state
           >> processSong) c
        else reset c
      else processCurrentState state c.

(** *** Public methods *)

Definition setEnabled (flag : bool) : Action T :=
  lift (with_isControllerEnabled flag)
  >> if flag then setMode Base
     else resetState >> setMode Disabled.

Definition finish : Action T :=
  debugLog log_removed LogLog >> resetState.

Definition resetSongData : Action T :=
  assertSongIsPlaying
  >> modifySong (song_resetInfo W)
  >> withSong (fun s => lift (emit (SavedEditsRemove s)))
  >> unprocessSong
  >> detached processSong.

Definition setUserSongData (data : EditedSongInfo) : Action T :=
  assertSongIsPlaying
  >> withSong (fun s =>
       if isScrobbled (flags s)
       then throw (Error_ error_scrobbled_song)
       else ret)
  >> withSong (fun s => lift (emit (SavedEditsSave s data)))
  >> unprocessSong
  >> detached processSong.

Definition toggleLove (loveStatus : LoveStatus) : Action T :=
  assertSongIsPlaying
  >> withSong (fun s =>
       if negb (isValid s)
       then throw (Error_ error_no_valid_song)
       else ret)
  >> withSong (fun s c =>
       let c := emit (ToggleLove s loveStatus) c in
       if manager_toggleLove_fails W (effects c) s loveStatus
       then Thrown (Error_ error_toggleLove) c
       else Returned c)
  >> modifySong (setLoveStatus loveStatus)
  >> onSongUpdated.

(** *** Executions *)

(** The controller's reaction to one input.  A timer callback runs
    after the timer has fired. *)
Definition step (i : Input) : Action T :=
  match i with
  | StateChange state => processStateChange state
  | PlaybackTimerExpired =>
      lift (on_playbackTimer timer_fire) >> onPlaybackTimerExpired
  | ReplayTimerExpired =>
      lift (on_replayDetectionTimer timer_fire) >> onReplayTimerExpired
  | TimeElapsed seconds =>
      lift (on_playbackTimer (timer_elapse seconds))
      >> lift (on_replayDetectionTimer (timer_elapse seconds))
  | ResetSongData => resetSongData
  | SkipCurrentSong => skipCurrentSong
  | SetUserSongData data => setUserSongData data
  | ToggleLoveStatus loveStatus => toggleLove loveStatus
  | SetEnabled flag => setEnabled flag
  | Finish => finish
  end.

(** A thrown error goes to the caller; the controller lives on. *)
Fixpoint run (inputs : list Input) (c : Controller T) : Controller T :=
  match inputs with
  | [] => c
  | i :: rest => run rest (state_of (step i c))
  end.

(** The states a controller can be in. *)
Definition reachable (c : Controller T) : Prop :=
  exists tab isEnabled inputs,
    c = run inputs (Controller_new tab isEnabled).
End Methods.

(** ** A timer and collaborators to run the controller with *)

Module Sample.

(** Modelled from the spec: the Countdown Timer
    (background/object/timer is not part of the sources).  "Timer
    state: elapsed accrual, optional target, running/paused flag,
    scheduled-callback handle." *)
Record Timer : Type := mkTimer {
  elapsed : Z;
  target : option Z;
  paused : bool;
  callback : bool;
}.

(** Modelled from the spec: the operations of the Countdown Timer.
    "start(onExpire) arms a default target and schedules the callback"
    (the default is not given: it is [defaultTarget]); "pause()/resume()
    suspend/resume elapsed-time accrual without losing progress, safe
    to call redundantly"; "update(targetSeconds | null) rebases the
    expiry target [...] or (if null) clears the target making the timer
    dormant - must not implicitly resume a paused timer"; "reset()
    clears elapsed time and target and cancels any scheduled callback";
    "isExpired() reports whether the target has been reached". *)
Definition ops (defaultTarget : option Z) : TimerOps Timer := {|
  timer_new := mkTimer 0 None false false;
  timer_start := fun _ => mkTimer 0 defaultTarget false true;
  timer_pause := fun t => mkTimer (elapsed t) (target t) true (callback t);
  timer_resume := fun t => mkTimer (elapsed t) (target t) false (callback t);
  timer_update := fun tg t => mkTimer (elapsed t) tg (paused t) (callback t);
  timer_reset := fun _ => mkTimer 0 None false false;
  timer_isExpired := fun t =>
    match target t with
    | Some tg => tg <=? elapsed t
    | None => false
    end;
  timer_getElapsed := elapsed;
  timer_elapse := fun seconds t =>
    if callback t && negb (paused t)
    then mkTimer (elapsed t + Z.of_N seconds) (target t) (paused t) (callback t)
    else t;
  timer_fire := fun t => t;
|}.

#[global] Instance timerOps : TimerOps Timer := ops None.

(** A threshold function: the given percentage of the duration, and
    -1 for a duration that is unknown or below 30 seconds. *)
Definition secondsToScrobble (d : option Z) (percent : Z) : Z :=
  match d with
  | Some d => if d <? 30 then -1 else d * percent / 100
  | None => -1
  end.

(** A state is empty when it has neither artist and track nor id. *)
Definition stateEmpty (st : ParsedSongInfo) : bool :=
  match artist st, track st, uniqueID st with
  | Some _, Some _, _ => false
  | _, _, Some _ => false
  | _, _, _ => true
  end.

Definition allResults (rs : list ApiCallResult) (t : ApiCallResultType) : bool :=
  match rs with
  | [] => false
  | _ => forallb (fun r => result_is r t) rs
  end.

Definition validate (s : Song) : Song :=
  set_flags (fun f => mkFlags true (isMarkedAsPlaying f) (isReadyToScrobble f)
                        (isScrobbled f) (isSkipped f) (isReplaying f)) s.

Definition isSavedEditsSave (e : Effect) : bool :=
  match e with SavedEditsSave _ _ => true | _ => false end.

(** A pipeline that accepts every song. *)
Definition accepting (h : list Effect) (s : Song) : Song := validate s.

(** A pipeline that accepts a song as the connector gave it, and no
    longer once the user has edited it. *)
Definition rejectingEdits (h : list Effect) (s : Song) : Song :=
  if existsb isSavedEditsSave h then s else validate s.

(** Collaborators with the given pipeline, whose scrobblers answer
    with the given results. *)
Definition world (pipeline : list Effect -> Song -> Song)
    (nowPlaying scrobbled : list ApiCallResult) : Collaborators := {|
  option_SCROBBLE_PERCENT := 50;
  option_SCROBBLE_PODCASTS := false;
  util_getSecondsToScrobble := secondsToScrobble;
  util_isStateEmpty := stateEmpty;
  util_areAllResults := allResults;
  pipeline_process := pipeline;
  song_resetInfo := fun s => s;
  song_resetData := fun s => mkSong (parsed s) noFlags (userloved s);
  manager_sendNowPlaying := fun _ _ => nowPlaying;
  manager_scrobble := fun _ _ => scrobbled;
  manager_toggleLove_fails := fun _ _ _ => false;
  manager_boundScrobblerIds := fun _ => ["lastfm"; "librefm"];
|}.

Definition ok (id : string) : ApiCallResult := mkResult id RESULT_OK.
Definition ignored (id : string) : ApiCallResult := mkResult id RESULT_IGNORE.
Definition failed (id : string) : ApiCallResult := mkResult id RESULT_ERROR.

Definition allOk : Collaborators :=
  world accepting [ok "lastfm"; ok "librefm"] [ok "lastfm"; ok "librefm"].

(** A connector state: a song of four minutes, playing. *)
Definition state1 : ParsedSongInfo :=
  mkState (Some "Artist") (Some "Track") (Some "Album") None
    (Some 240) (Some 0) true None false.

(** The same song, ten seconds later, with another cover. *)
Definition state1_later : ParsedSongInfo :=
  mkState (Some "Artist") (Some "Track") (Some "Album") None
    (Some 240) (Some 10) true (Some "cover.png") false.

(** Another song. *)
Definition state2 : ParsedSongInfo :=
  mkState (Some "Artist") (Some "Other track") (Some "Album") None
    (Some 200) (Some 0) true None false.

(** A state with no data at all that still claims to play. *)
Definition emptyState : ParsedSongInfo :=
  mkState None None None None None None true None false.

(** A controller in which [state1] was seen and processed. *)
Definition playing1 : Controller Timer :=
  run allOk [StateChange state1] (Controller_new allOk 1 true).

(** A controller with a song [s] and a playback timer [t]. *)
Definition holding (s : Song) (t : Timer) : Controller Timer :=
  mkController Playing 1 (Some s) t t false true false [].

Definition song1 (f : SongFlags) : Song := mkSong state1 f None.

(** A controller that holds [state1] as a song not processed yet. *)
Definition idle1 : Controller Timer :=
  holding (song1 noFlags) (mkTimer 0 None false true).

(** The same song with a duration of 0, and with a longer one. *)
Definition state1_zero : ParsedSongInfo :=
  mkState (Some "Artist") (Some "Track") (Some "Album") None
    (Some 0) (Some 10) true None false.

Definition state1_longer : ParsedSongInfo :=
  mkState (Some "Artist") (Some "Track") (Some "Album") None
    (Some 300) (Some 10) true None false.

Definition edit1 : EditedSongInfo :=
  mkEdit (Some "Artist") (Some "Track (live)") None.

(** One scrobbler accepts the song, two fail. *)
Definition oneOkTwoFailed : list ApiCallResult :=
  [ok "lastfm"; failed "librefm"; failed "listenbrainz"].

Definition partlyFailing : Collaborators :=
  world accepting [ok "lastfm"] oneOkTwoFailed.

(** One scrobbler ignores the song, the other accepts it. *)
Definition oneIgnoredOneOk : list ApiCallResult :=
  [ignored "lastfm"; ok "librefm"].

Definition partlyIgnoring : Collaborators :=
  world accepting [ok "lastfm"] oneIgnoredOneOk.

(** Every scrobbler ignores the song. *)
Definition allIgnoring : Collaborators :=
  world accepting [ok "lastfm"] [ignored "lastfm"; ignored "librefm"].

(** The scrobbler fails, and the pipeline rejects an edited song. *)
Definition failingAndRejectingEdits : Collaborators :=
  world rejectingEdits [ok "lastfm"] [failed "lastfm"].

(** The pipeline accepts no song. *)
Definition neverValid : Collaborators :=
  world (fun _ s => s) [ok "lastfm"] [ok "lastfm"].

(** The song [state1] is seen, plays for two minutes, and the playback
    timer expires. *)
Definition untilExpiry : list Input :=
  [StateChange state1; TimeElapsed 120%N; PlaybackTimerExpired].

Definition afterExpiry (W : Collaborators) : Controller Timer :=
  run W untilExpiry (Controller_new W 1 true).

(** The song [state1] is seen and skipped by the user. *)
Definition skipped1 : Controller Timer :=
  run allOk [StateChange state1; SkipCurrentSong] (Controller_new allOk 1 true).

(** The song [state1] is seen and not recognized. *)
Definition unknown1 : Controller Timer :=
  run neverValid [StateChange state1] (Controller_new neverValid 1 true).


(** Inputs after the expiry that keep the song of [state1]: the song
    goes on, pauses, and is reported with a longer duration. *)
Definition state1_paused : ParsedSongInfo :=
  mkState (Some "Artist") (Some "Track") (Some "Album") None
    (Some 300) (Some 150) false None false.

Definition lateInputs : list Input :=
  [StateChange state1_later; TimeElapsed 30%N; StateChange state1_paused;
   ToggleLoveStatus Unloved; ReplayTimerExpired].

(** A controller that has seen no state yet. *)
Definition idle : Controller Timer := Controller_new allOk 1 true.

(** The song [state1] has been playing for two minutes. *)
Definition listening (W : Collaborators) : Controller Timer :=
  run W [StateChange state1; TimeElapsed 120%N] (Controller_new W 1 true).

Definition songOf (c : Controller Timer) : Song :=
  match currentSong c with
  | Some s => s
  | None => Song_new emptyState
  end.
End Sample.

(** ** The claims in the spec's words *)

(** Submit action, as claimed: "if the count of non-failed results
    strictly exceeds the count of failed results then [...] Submitted;
    else if every result is Ignore [...] Ignored; else [...] Error".
    [isFailed] says which results count as failed. *)
Definition claimed_submit_mode (isFailed : ApiCallResult -> bool)
    (results : list ApiCallResult) : ControllerMode :=
  let failed := filter isFailed results in
  let nonFailed := filter (fun r => negb (isFailed r)) results in
  if (List.length failed <? List.length nonFailed)%nat then Scrobbled
  else if forallb (fun r => result_is r RESULT_IGNORE) results then Ignored
  else Err.

(** Retry queue, as claimed: "exactly the backend ids whose result is
    Error are queued [...] only if the Track is presently invalid". *)
Definition claimed_queue (s : Song) (results : list ApiCallResult) : list string :=
  if negb (isValid s)
  then map getScrobblerId (filter (fun r => result_is r RESULT_ERROR) results)
  else [].

(** The scrobbler ids handed to the scrobble storage in a history. *)
Fixpoint queuedIds (h : list Effect) : list string :=
  match h with
  | [] => []
  | StorageAddSong _ ids :: rest => ids ++ queuedIds rest
  | _ :: rest => queuedIds rest
  end.

(** Two states with the same identity fields. *)
Definition sameIdentity (a b : ParsedSongInfo) : Prop :=
  artist a = artist b /\ track a = track b
  /\ album a = album b /\ uniqueID a = uniqueID b.

(** The current song is marked as playing. *)
Definition markedAsPlaying {T} (c : Controller T) : Prop :=
  exists s, currentSong c = Some s /\ isMarkedAsPlaying (flags s) = true.

(** A controller that is not enabled has no song. *)
Definition disabledHasNoSong {T} (c : Controller T) : Prop :=
  isControllerEnabled c = false -> currentSong c = None.

(** An input that runs the pipeline again on the current song. *)
Definition isRerun (i : Input) : bool :=
  match i with
  | ResetSongData | SetUserSongData _ => true
  | _ => false
  end.

(** ** What a history shows *)

Definition isScrobble (e : Effect) : bool :=
  match e with Scrobble _ => true | _ => false end.

Definition isSongUpdated (e : Effect) : bool :=
  match e with OnSongUpdated => true | _ => false end.

Definition isModeChanged (e : Effect) : bool :=
  match e with OnModeChanged _ => true | _ => false end.

Definition isPipelineProcess (e : Effect) : bool :=
  match e with PipelineProcess _ => true | _ => false end.

Definition isPlaybackTimerExpired (i : Input) : bool :=
  match i with PlaybackTimerExpired => true | _ => false end.

(** The mode [onModeChanged] showed last; [initial] if it was never
    called. *)
Definition lastNotifiedMode (initial : ControllerMode) (h : list Effect)
    : ControllerMode :=
  fold_left (fun m e => match e with OnModeChanged m' => m' | _ => m end)
    h initial.

(** A now-playing request carries a valid song flagged as marked. *)
Definition announcesValid (e : Effect) : Prop :=
  match e with
  | SendNowPlaying s => isValid s = true /\ isMarkedAsPlaying (flags s) = true
  | _ => True
  end.




(** The scrobble requests an input is answered with: one, when the
    playback timer fires on a song that is not skipped. *)
Definition scrobblesOn {T} (i : Input) (c : Controller T) : nat :=
  match i, currentSong c with
  | PlaybackTimerExpired, Some s => if isSkipped (flags s) then 0 else 1
  | _, _ => 0
  end.

Section Histories.
Context {T : Type} {timerOps : TimerOps T} (W : Collaborators).

(** The same, summed along inputs. *)
Fixpoint scrobblesDue (inputs : list Input) (c : Controller T) : nat :=
  match inputs with
  | [] => 0
  | i :: rest => scrobblesOn i c + scrobblesDue rest (state_of (step W i c))
  end.

(** What [processStateChange] hands to the scrobble storage before it
    replaces the song: the outgoing song, for the bound scrobblers, when
    [isNeedToAddSongToScrobbleStorage]. *)
Definition outgoingSongAdded (c : Controller T) : list Effect :=
  if isNeedToAddSongToScrobbleStorage W c then
    match currentSong c with
    | Some s => [StorageAddSong s (manager_boundScrobblerIds W (effects c))]
    | None => []
    end
  else [].
End Histories.

Module Scenario.
(** Another song, not playing. *)
Definition state2_paused : ParsedSongInfo :=
  mkState (Some "Artist") (Some "Other track") (Some "Album") None
    (Some 200) (Some 0) false None false.

(** The song [state1], paused after it was announced. *)
Definition paused1 : Controller Sample.Timer :=
  run Sample.allOk [StateChange Sample.state1_paused] Sample.playing1.

End Scenario.

(** ** Properties *)

Lemma option_string_dec (a b : option string) : {a = b} + {a <> b}.
Proof. decide equality. apply string_dec. Qed.

Lemma js_strict_eq_string (a b : option string) :
  js_strict_eq (js_of_string a) (js_of_string b) = true <-> a = b.
Proof.
  destruct a as [x|], b as [y|]; simpl; split; intro E;
    try discriminate; try reflexivity.
  - apply String.eqb_eq in E. now subst.
  - injection E as ->. apply String.eqb_refl.
Qed.

Lemma js_strict_neq_string (a b : option string) :
  negb (js_strict_eq (js_of_string a) (js_of_string b)) = true <-> a <> b.
Proof.
  rewrite negb_true_iff, <- not_true_iff_false.
  now rewrite js_strict_eq_string.
Qed.

Lemma anyFieldDiffers_identity (newState old : ParsedSongInfo) :
  anyFieldDiffers fieldsToCheckSongChange newState old = true
  <-> ~ sameIdentity newState old.
Proof.
  unfold sameIdentity, fieldsToCheckSongChange, anyFieldDiffers, getField.
  destruct (negb (js_strict_eq (js_of_string (artist newState)) _)) eqn:Ea;
  [| destruct (negb (js_strict_eq (js_of_string (track newState)) _)) eqn:Et;
   [| destruct (negb (js_strict_eq (js_of_string (album newState)) _)) eqn:El;
    [| destruct (negb (js_strict_eq (js_of_string (uniqueID newState)) _)) eqn:Eu]]].
  all: try (apply js_strict_neq_string in Ea);
       try (apply js_strict_neq_string in Et);
       try (apply js_strict_neq_string in El);
       try (apply js_strict_neq_string in Eu).
  1-4: split; [intros _ [? [? [? ?]]]; contradiction | reflexivity].
  apply negb_false_iff, js_strict_eq_string in Ea, Et, El, Eu.
  split; [discriminate | intro N; exfalso; apply N; repeat split; assumption].
Qed.

Lemma filter_length_le {A} (p : A -> bool) (l : list A) :
  (List.length (filter p l) <= List.length l)%nat.
Proof.
  induction l as [|x l IH]; simpl; [lia|].
  destruct (p x); simpl; lia.
Qed.

(** [results.length > failedScrobblerIds.length] says that some result
    is OK. *)
Lemma fewer_failed_iff_any_ok (results : list ApiCallResult) :
  (List.length
     (map getScrobblerId
        (filter (fun r => negb (result_is r RESULT_OK)) results))
   <? List.length results)%nat
  = isAnyResult results RESULT_OK.
Proof.
  rewrite length_map. unfold isAnyResult.
  induction results as [|r rs IH]; [reflexivity|].
  simpl. destruct (result_is r RESULT_OK); simpl.
  - apply Nat.ltb_lt.
    pose proof (filter_length_le (fun r => negb (result_is r RESULT_OK)) rs).
    lia.
  - rewrite <- IH. reflexivity.
Qed.

Lemma failed_ids_in (results : list ApiCallResult) (id : string) :
  In id (map getScrobblerId
           (filter (fun r => negb (result_is r RESULT_OK)) results))
  <-> exists r, In r results /\ getScrobblerId r = id
                /\ resultType r <> RESULT_OK.
Proof.
  rewrite in_map_iff. split.
  - intros (r & E & I). apply filter_In in I. destruct I as [I N].
    exists r. repeat split; try assumption.
    intro R. unfold result_is in N. rewrite R in N. discriminate.
  - intros (r & I & E & N). exists r. split; [assumption|].
    apply filter_In. split; [assumption|].
    unfold result_is. destruct (resultType r); try reflexivity.
    contradiction.
Qed.

Lemma all_ignore_forallb (results : list ApiCallResult) :
  Forall (fun r => resultType r = RESULT_IGNORE) results ->
  forallb (fun r => result_is r RESULT_IGNORE) results = true
  /\ isAnyResult results RESULT_OK = false.
Proof.
  induction 1 as [|r rs E _ [IH1 IH2]]; [split; reflexivity|].
  unfold isAnyResult in *. simpl. unfold result_is at 1 3.
  rewrite E, IH1, IH2. split; reflexivity.
Qed.

Lemma count_app (p : Effect -> bool) (h d : list Effect) :
  count p (h ++ d) = (count p h + count p d)%nat.
Proof. unfold count. now rewrite filter_app, length_app. Qed.

(** Read the fields of a song that is written out, and decide the
    conditions that are. *)
Ltac song_fields :=
  cbn [parsed flags userloved isValid_flag isMarkedAsPlaying
       isReadyToScrobble isScrobbled isSkipped isReplaying
       artist track album uniqueID duration currentTime isPlaying
       trackArt isPodcast negb andb orb Bool.eqb]
    in *.

(** Run the methods down to the conditions they branch on.  The
    evaluation is by value, so that a field is computed once however
    many assignments follow it. *)
Ltac compute_model :=
  cbv beta iota zeta delta
    [step run resetSongData setUserSongData toggleLove setEnabled finish
     processStateChange processEmptyState processNewState
     processCurrentState processSong unprocessSong pipelined
     onPlaybackTimerExpired onReplayTimerExpired onPlayingStateChanged
     scrobbleSong updateSongDuration updateTimers setSongNowPlaying
     setSongNowPlaying_then setSongNowPlaying_sent setSongNowPlaying_resumed
     nowPlayingResults setSongNotRecognized skipCurrentSong
     addSongToScrobbleStorage isNeedToAddSongToScrobbleStorage
     isNeedToUpdateDuration getSecondsToScrobble
     reset resetState setMode onModeChanged dispatchEvent onSongUpdated
     debugLog assertSongIsPlaying modifySong withSong detached andThen
     lift ret throw state_of
     emit with_mode with_currentSong on_playbackTimer
     on_replayDetectionTimer with_isReplayingSong with_isControllerEnabled
     timers mode tabId currentSong playbackTimer replayDetectionTimer
     isReplayingSong isControllerEnabled shouldScrobblePodcasts effects
     getDuration isValid setLoveStatus set_isMarkedAsPlaying
     set_isReadyToScrobble set_isScrobbled set_isSkipped set_isReplaying
     set_currentTime set_isPlaying set_trackArt set_duration set_flags
     set_parsed Song_new noFlags markedAsPlaying]
    in *;
  song_fields.

(** Case analysis on the conditions a method branches on, innermost
    first. *)
Ltac case_on x :=
  lazymatch x with
  | context [match _ with _ => _ end] => fail
  | negb ?y => case_on y
  | ?a && _ => case_on a
  | ?a || _ => case_on a
  | Bool.eqb ?a _ => case_on a
  | Bool.eqb true ?b => case_on b
  | Bool.eqb false ?b => case_on b
  | _ => destruct x eqn:?; cbv beta iota in *; song_fields
  end.

Ltac break :=
  repeat match goal with
  | |- context [match ?x with _ => _ end] => case_on x
  end.

(** A case whose conditions contradict each other. *)
Ltac absurd_case :=
  match goal with
  | H1 : ?x = true, H2 : ?x = false |- _ => rewrite H1 in H2; discriminate H2
  | H1 : ?x = Some _, H2 : ?x = None |- _ => rewrite H1 in H2; discriminate H2
  | H : true = false |- _ => discriminate H
  | H : false = true |- _ => discriminate H
  | H : Some _ = None |- _ => discriminate H
  | H : None = Some _ |- _ => discriminate H
  end.

(** Bring a history to the form [h ++ d] and count in it. *)
Ltac count_effects :=
  rewrite <- ?app_assoc in *; rewrite ?count_app in *;
  unfold count in *; simpl in *.

(** [isNeedToUpdateDuration]: the state has a duration that is neither
    [null] nor 0 and is not the song's. *)
Lemma isNeedToUpdateDuration_iff (newState : ParsedSongInfo) (s : Song) :
  isNeedToUpdateDuration newState s = true
  <-> exists d, duration newState = Some d /\ d <> 0
                /\ duration (parsed s) <> Some d.
Proof.
  unfold isNeedToUpdateDuration, truthy, number_differs.
  destruct (duration newState) as [d|]; simpl.
  - rewrite andb_true_iff, !negb_true_iff, Z.eqb_neq.
    destruct (duration (parsed s)) as [d0|]; simpl.
    + rewrite Z.eqb_neq. split.
      * intros [N D]. exists d. repeat split; congruence.
      * intros (d' & E & N & D). injection E as <-.
        split; [assumption | congruence].
    + split.
      * intros [N _]. exists d. repeat split; congruence.
      * intros (d' & E & N & D). injection E as <-. split; [assumption | reflexivity].
  - split; [discriminate | intros (d & E & _)]. discriminate.
Qed.

Section Properties.
Context {T : Type} {timerOps : TimerOps T} (W : Collaborators).

(** C3.  Song-change detection answers true exactly when there is no
    current song or one of artist, track, album, uniqueID of the state
    differs from the current song's; the answer is the same for any
    two states, and any two current songs, with these four fields
    equal, whatever their currentTime, isPlaying, trackArt and
    duration. *)
Theorem isSongChanged_identity_fields :
  forall (newState : ParsedSongInfo) (c : Controller T),
    match currentSong c with
    | None => isSongChanged newState c = true
    | Some s =>
        (isSongChanged newState c = true <->
           artist newState <> artist (parsed s)
           \/ track newState <> track (parsed s)
           \/ album newState <> album (parsed s)
           \/ uniqueID newState <> uniqueID (parsed s))
        /\ (forall (newState' : ParsedSongInfo) (c' : Controller T) (s' : Song),
              currentSong c' = Some s' ->
              sameIdentity newState' newState ->
              sameIdentity (parsed s') (parsed s) ->
              isSongChanged newState' c' = isSongChanged newState c)
    end.
Proof.
  intros newState c. unfold isSongChanged.
  destruct (currentSong c) as [s|]; [|reflexivity].
  split.
  - rewrite anyFieldDiffers_identity. unfold sameIdentity.
    destruct (option_string_dec (artist newState) (artist (parsed s)));
    destruct (option_string_dec (track newState) (track (parsed s)));
    destruct (option_string_dec (album newState) (album (parsed s)));
    destruct (option_string_dec (uniqueID newState) (uniqueID (parsed s)));
    tauto.
  - intros newState' c' s' Hc' Hst Hs. rewrite Hc'.
    apply eq_true_iff_eq. rewrite !anyFieldDiffers_identity.
    unfold sameIdentity in *.
    destruct Hst as (-> & -> & -> & ->). destruct Hs as (-> & -> & -> & ->).
    reflexivity.
Qed.

(** C8.  [isNeedToAddSongToScrobbleStorage] answers true exactly when
    there is a current song, the song is not valid, the seconds to
    scrobble computed from its duration are not -1, and the playback
    timer has elapsed at least that many seconds. *)
Theorem isNeedToAddSongToScrobbleStorage_iff :
  forall c : Controller T,
    isNeedToAddSongToScrobbleStorage W c = true
    <-> exists s,
          currentSong c = Some s
          /\ isValid s = false
          /\ getSecondsToScrobble W (getDuration s) <> -1
          /\ getSecondsToScrobble W (getDuration s)
             <= timer_getElapsed (playbackTimer c).
Proof.
  intro c. unfold isNeedToAddSongToScrobbleStorage.
  destruct (currentSong c) as [s|].
  - destruct (isValid s) eqn:Ev; simpl.
    + split; [discriminate | intros (s' & E & Ev' & _)].
      injection E as <-. congruence.
    + destruct (getSecondsToScrobble W (getDuration s) =? -1) eqn:Es; simpl.
      * apply Z.eqb_eq in Es.
        split; [discriminate | intros (s' & E & _ & N & _)].
        injection E as <-. contradiction.
      * apply Z.eqb_neq in Es. rewrite Z.leb_le.
        split.
        -- intro L. exists s. repeat split; assumption.
        -- intros (s' & E & _ & _ & L). injection E as <-. exact L.
  - split; [discriminate | intros (s & E & _)]. discriminate.
Qed.

(** C9.  With no current song, [resetSongData], [skipCurrentSong],
    [setUserSongData] and [toggleLove] throw 'No song is now playing'
    and change nothing; [setUserSongData] throws when the current song
    is scrobbled, and [toggleLove] throws when it is not valid. *)
Theorem user_commands_throw :
  forall (c : Controller T) (data : EditedSongInfo) (loveStatus : LoveStatus),
    (currentSong c = None ->
       let e := Thrown (Error_ error_no_song) c in
       resetSongData W c = e
       /\ skipCurrentSong c = e
       /\ setUserSongData W data c = e
       /\ toggleLove W loveStatus c = e)
    /\ (forall s, currentSong c = Some s ->
          isScrobbled (flags s) = true ->
          setUserSongData W data c
          = Thrown (Error_ error_scrobbled_song) c)
    /\ (forall s, currentSong c = Some s ->
          isValid s = false ->
          toggleLove W loveStatus c
          = Thrown (Error_ error_no_valid_song) c).
Proof.
  intros c data loveStatus.
  unfold resetSongData, skipCurrentSong, setUserSongData, toggleLove,
    assertSongIsPlaying, andThen, withSong.
  repeat split.
  1-4: rewrite H; reflexivity.
  - intros s E S. rewrite E. cbn beta iota. rewrite E, S. reflexivity.
  - intros s E V. rewrite E. cbn beta iota. rewrite E, V. reflexivity.
Qed.

(** C1 (amended).  [scrobbleSong] returns.  If at least one result is
    OK, that is, if there are more results than results that are not
    OK, the song is flagged [isScrobbled] and the mode is [Scrobbled];
    else if [areAllResults] holds of [RESULT_IGNORE] the mode is
    [Ignored]; else it is [Err].  In particular, one or more results
    that are all [RESULT_IGNORE] give the mode [Ignored]. *)
Theorem scrobbleSong_mode :
  forall (c : Controller T) (s : Song) (results : list ApiCallResult),
    currentSong c = Some s ->
    manager_scrobble W (effects c ++ [Scrobble s]) s = results ->
    exists c',
      scrobbleSong W c = Returned c'
      /\ (if isAnyResult results RESULT_OK then
            mode c' = Scrobbled
            /\ currentSong c' = Some (set_isScrobbled true s)
          else if util_areAllResults W results RESULT_IGNORE then
            mode c' = Ignored /\ currentSong c' = Some s
          else
            mode c' = Err /\ currentSong c' = Some s)
      /\ (areAllResults_law W ->
          results <> [] ->
          Forall (fun r => resultType r = RESULT_IGNORE) results ->
          mode c' = Ignored).
Proof.
  intros c s results Hs Hr.
  destruct c as [m tab song pt rt rep en pod eff]; simpl in *; subst song.
  unfold scrobbleSong, withSong; simpl. rewrite Hr.
  rewrite fewer_failed_iff_any_ok.
  set (ids := map getScrobblerId _).
  assert (Hlaw : areAllResults_law W -> results <> [] ->
                 Forall (fun r => resultType r = RESULT_IGNORE) results ->
                 isAnyResult results RESULT_OK = false
                 /\ util_areAllResults W results RESULT_IGNORE = true).
  { intros L N A. destruct (all_ignore_forallb results A) as [F O].
    split; [exact O|].
    destruct results as [|r rs]; [contradiction|]. now rewrite L. }
  destruct (isAnyResult results RESULT_OK) eqn:Ok;
    [| destruct (util_areAllResults W results RESULT_IGNORE) eqn:Ig];
    destruct (0 <? List.length ids)%nat;
    (eexists; split; [reflexivity|]); simpl;
    (split; [split; reflexivity|]); intros L N A;
    destruct (Hlaw L N A); congruence.
Qed.

(** C2 (amended).  [scrobbleSong] hands to the scrobble storage, in one
    call, the ids of the results that are not OK, those that are
    [RESULT_IGNORE] included, whether the song is valid or not; it hands
    over nothing when every result is OK. *)
Theorem scrobbleSong_queue :
  forall (c : Controller T) (s : Song) (results : list ApiCallResult),
    currentSong c = Some s ->
    manager_scrobble W (effects c ++ [Scrobble s]) s = results ->
    exists c' done,
      scrobbleSong W c = Returned c'
      /\ effects c' = effects c ++ done
      /\ queuedIds done
         = map getScrobblerId
             (filter (fun r => negb (result_is r RESULT_OK)) results)
      /\ count isStorageAddSong done
         = (if forallb (fun r => result_is r RESULT_OK) results
            then 0 else 1)%nat
      /\ (forall id,
            In id (queuedIds done)
            <-> exists r, In r results /\ getScrobblerId r = id
                          /\ resultType r <> RESULT_OK).
Proof.
  intros c s results Hs Hr.
  destruct c as [m tab song pt rt rep en pod eff]; simpl in *; subst song.
  unfold scrobbleSong, withSong; simpl. rewrite Hr.
  rewrite fewer_failed_iff_any_ok.
  pose proof (failed_ids_in results) as Hin.
  assert (Hcnt : (0 <? List.length
                    (map getScrobblerId
                       (filter (fun r => negb (result_is r RESULT_OK)) results)))%nat
                 = negb (forallb (fun r => result_is r RESULT_OK) results)).
  { clear. induction results as [|r rs IH]; [reflexivity|].
    simpl. destruct (result_is r RESULT_OK); simpl; [exact IH | reflexivity]. }
  revert Hin Hcnt.
  set (ids := map getScrobblerId _). intros Hin Hcnt.
  apply (f_equal negb) in Hcnt. rewrite negb_involutive in Hcnt.
  rewrite <- Hcnt.
  destruct (isAnyResult results RESULT_OK);
    [| destruct (util_areAllResults W results RESULT_IGNORE)];
    destruct ids as [|i ids'] eqn:Eids; simpl;
    (eexists; eexists; split; [reflexivity|]); simpl;
    rewrite <- ?app_assoc; simpl;
    (split; [reflexivity|]); simpl; rewrite ?app_nil_r;
    (split; [reflexivity|]); (split; [reflexivity|]); exact Hin.
Qed.

(** C5.  When the pipeline leaves the current song valid, not an
    excluded podcast, and playing, [processSong] returns, and it sends
    the now-playing request exactly when the playback timer, as
    [updateTimers] leaves it, is not expired; when it is expired (as it
    is if it was before the run) no request is sent; the
    [SongNowPlaying] event is dispatched once in both cases. *)
Theorem processSong_now_playing :
  forall (c : Controller T) (s : Song),
    currentSong c = Some s ->
    let s' := pipelined W c s in
    isValid s' = true ->
    negb (shouldScrobblePodcasts c) && isPodcast (parsed s') = false ->
    isPlaying (parsed s') = true ->
    exists c',
      processSong W c = Returned c'
      /\ playbackTimer c'
         = playbackTimer
             (state_of (updateTimers W (getDuration s') c))
      /\ (timer_isExpired (playbackTimer c) = true ->
          timer_isExpired (playbackTimer c') = true)
      /\ count (isEvent SongNowPlaying) (effects c')
         = S (count (isEvent SongNowPlaying) (effects c))
      /\ if timer_isExpired (playbackTimer c') then
           count isSendNowPlaying (effects c')
           = count isSendNowPlaying (effects c)
           /\ currentSong c' = Some (set_isMarkedAsPlaying false s')
         else
           count isSendNowPlaying (effects c')
           = S (count isSendNowPlaying (effects c))
           /\ currentSong c' = Some (set_isMarkedAsPlaying true s').
Proof.
  intros c s Hs s' Hv Hp Hpl. subst s'.
  destruct c as [m tab song pt rt rep en pod eff]; simpl in Hs; subst song.
  compute_model. rewrite <- !app_assoc. simpl app.
  remember (pipeline_process W _ s) as s' eqn:Es'. clear Es'.
  break; try absurd_case;
    (eexists; split; [reflexivity|]); cbv beta iota;
    repeat match goal with
           | E : timer_isExpired _ = _ |- _ => rewrite E
           end;
    repeat split; try reflexivity; try congruence;
    count_effects; lia.
Qed.

(** With the playback timer expired, [updateTimers] only logs a
    warning, and a duration update, a pipeline run and a state processed
    as the current one leave the targets of both timers alone. *)
Lemma expired_timers_methods :
  forall (c : Controller T) (d : option Z),
    timer_isExpired (playbackTimer c) = true ->
    updateTimers W d c
    = Returned (emit (DebugLog log_expired_timers LogWarn) c)
    /\ timers (state_of (updateSongDuration W d c)) = timers c
    /\ timers (state_of (processSong W c)) = timers c
    /\ (forall newState,
          let c' := state_of (processCurrentState W newState c) in
          timers c' = timers c
          \/ timers c'
             = (timer_pause (playbackTimer c),
                timer_pause (replayDetectionTimer c))
          \/ timers c'
             = (timer_resume (playbackTimer c),
                timer_resume (replayDetectionTimer c))).
Proof.
  intros c d Ex. split; [|split; [|split]].
  - unfold updateTimers. now rewrite Ex.
  - destruct c as [m tab song pt rt rep en pod eff].
    compute_model. break; try absurd_case; reflexivity.
  - destruct c as [m tab song pt rt rep en pod eff].
    compute_model. break; try absurd_case; reflexivity.
  - intros newState c'. subst c'.
    destruct c as [m tab song pt rt rep en pod eff].
    compute_model.
    break; try absurd_case;
      first [ left; reflexivity
            | right; left; reflexivity
            | right; right; reflexivity ].
Qed.

Lemma step_disabledHasNoSong (i : Input) (c : Controller T) :
  disabledHasNoSong c -> disabledHasNoSong (state_of (step W i c)).
Proof.
  unfold disabledHasNoSong.
  destruct c as [m tab song pt rt rep en pod eff].
  intro Inv.
  destruct en; [clear Inv | specialize (Inv eq_refl); simpl in Inv; subst song];
    destruct i as [st| | | | | | | |[]|];
    compute_model; break; intros; try reflexivity; try discriminate.
Qed.

Lemma run_disabledHasNoSong (inputs : list Input) :
  forall c : Controller T,
    disabledHasNoSong c -> disabledHasNoSong (run W inputs c).
Proof.
  induction inputs as [|i rest IH]; intros c Inv; simpl; [exact Inv|].
  apply IH, step_disabledHasNoSong, Inv.
Qed.

Lemma reachable_song_enabled (c : Controller T) (s : Song) :
  reachable W c -> currentSong c = Some s -> isControllerEnabled c = true.
Proof.
  intros (tab & en & inputs & ->) Hs.
  assert (Inv : disabledHasNoSong (run W inputs (Controller_new W tab en))).
  { apply run_disabledHasNoSong. intros _. reflexivity. }
  destruct (isControllerEnabled _) eqn:E; [reflexivity|].
  rewrite (Inv E) in Hs. discriminate.
Qed.

(** C7.  An empty state received while there is a song: the controller
    logs it, hands the song to the scrobble storage if
    [isNeedToAddSongToScrobbleStorage] says so, then resets (the
    [Reset] event, both timers reset, no song, mode [Base]); if the
    state claims to be playing a warning is logged after that, and
    nothing else is done. *)
Theorem empty_state_resets :
  forall (c : Controller T) (s : Song) (state : ParsedSongInfo),
    reachable W c ->
    currentSong c = Some s ->
    util_isStateEmpty W state = true ->
    let received := DebugLog log_empty_state LogLog in
    exists c',
      processStateChange W state c = Returned c'
      /\ mode c' = Base
      /\ currentSong c' = None
      /\ timers c'
         = (timer_reset (playbackTimer c),
            timer_reset (replayDetectionTimer c))
      /\ isReplayingSong c' = isReplayingSong c
      /\ isControllerEnabled c' = true
      /\ effects c'
         = effects c ++ [received]
           ++ (if isNeedToAddSongToScrobbleStorage W c
               then [StorageAddSong s
                       (manager_boundScrobblerIds W (effects c ++ [received]))]
               else [])
           ++ [OnControllerEvent Reset; OnModeChanged Base]
           ++ (if isPlaying state
               then [DebugLog log_not_enough_information LogWarn]
               else []).
Proof.
  intros c s state Hr Hs He received. subst received.
  pose proof (reachable_song_enabled c s Hr Hs) as Hen.
  destruct c as [m tab song pt rt rep en pod eff];
    simpl in Hs, Hen; subst song en.
  compute_model.
  break; try absurd_case;
    (eexists; split; [reflexivity|]);
    repeat split; rewrite <- ?app_assoc; reflexivity.
Qed.

(** C6 (amended).  A state that is not empty, with the identity fields
    of the current song, received while no replay is flagged and the
    song is not skipped: its currentTime, isPlaying and trackArt are
    written to the song; its duration is written when it is neither
    null nor 0 and differs from the song's, and then, if the song is
    valid, the playback timer is not expired and the seconds to
    scrobble are not -1, both timers are updated; if isPlaying changed
    both timers are resumed or paused. *)
Theorem same_song_state_merged :
  forall (c : Controller T) (s : Song) (newState : ParsedSongInfo),
    reachable W c ->
    currentSong c = Some s ->
    util_isStateEmpty W newState = false ->
    isSongChanged newState c = false ->
    isReplayingSong c = false ->
    isSkipped (flags s) = false ->
    let update := isNeedToUpdateDuration newState s in
    let rebase :=
      update && isValid s && negb (timer_isExpired (playbackTimer c))
      && negb (getSecondsToScrobble W (duration newState) =? -1) in
    let toggle := fun t : T =>
      if Bool.eqb (isPlaying (parsed s)) (isPlaying newState) then t
      else if isPlaying newState then timer_resume t else timer_pause t in
    exists c' s',
      processStateChange W newState c = Returned c'
      /\ currentSong c' = Some s'
      /\ parsed s'
         = mkState (artist (parsed s)) (track (parsed s)) (album (parsed s))
             (uniqueID (parsed s))
             (if update then duration newState else duration (parsed s))
             (currentTime newState) (isPlaying newState) (trackArt newState)
             (isPodcast (parsed s))
      /\ playbackTimer c'
         = toggle (if rebase
                   then timer_update
                          (Some (getSecondsToScrobble W (duration newState)))
                          (playbackTimer c)
                   else playbackTimer c)
      /\ replayDetectionTimer c'
         = toggle (if rebase
                   then timer_update (duration newState)
                          (replayDetectionTimer c)
                   else replayDetectionTimer c)
      /\ (update = true <->
          exists d, duration newState = Some d /\ d <> 0
                    /\ duration (parsed s) <> Some d).
Proof.
  intros c s newState Hr Hs He Hc Hrep Hsk update rebase toggle.
  subst update rebase toggle.
  pose proof (reachable_song_enabled c s Hr Hs) as Hen.
  pose proof (isNeedToUpdateDuration_iff newState s) as Hiff.
  destruct c as [m tab song pt rt rep en pod eff];
    simpl in Hs, Hen, Hrep; subst song en rep.
  compute_model.
  break; try absurd_case;
    (eexists; eexists; split; [reflexivity|]);
    repeat split; try reflexivity; try apply Hiff.
Qed.

(** The history only grows. *)
Lemma step_grows (i : Input) (c : Controller T) :
  exists d, effects (state_of (step W i c)) = effects c ++ d.
Proof.
  destruct c as [m tab song pt rt rep en pod eff].
  destruct i as [st| | | | | | | |[]|];
    compute_model; break;
    rewrite <- ?app_assoc;
    first [ eexists; reflexivity
          | exists []; symmetry; apply app_nil_r ].
Qed.

Lemma step_resets_le (i : Input) (c : Controller T) :
  (count (isEvent Reset) (effects c)
   <= count (isEvent Reset) (effects (state_of (step W i c))))%nat.
Proof.
  destruct (step_grows i c) as [d ->]. rewrite count_app. lia.
Qed.

Lemma run_resets_le (inputs : list Input) :
  forall c : Controller T,
    (count (isEvent Reset) (effects c)
     <= count (isEvent Reset) (effects (run W inputs c)))%nat.
Proof.
  induction inputs as [|i rest IH]; intro c; simpl; [lia|].
  pose proof (step_resets_le i c). pose proof (IH (state_of (step W i c))).
  lia.
Qed.


Lemma drifts_trans (t t' t'' : T) :
  drifts t t' -> drifts t' t'' -> drifts t t''.
Proof.
  intros A B. induction B; [exact A | constructor; auto ..].
Qed.

Lemma drifts_expired (t t' : T) :
  expiry_stable T -> drifts t t' ->
  timer_isExpired t = true -> timer_isExpired t' = true.
Proof.
  intros L D E.
  induction D as [| t t' D IH | t t' D IH | t t' D IH | t t' n D IH];
    [exact E | apply (L t' (IH E)) ..].
Qed.

(** One input that is not a re-run, with the playback timer expired:
    unless the controller resets, both timers only drift. *)
Lemma step_expired (i : Input) (c : Controller T) :
  isRerun i = false ->
  timer_isExpired (playbackTimer c) = true ->
  count (isEvent Reset) (effects (state_of (step W i c)))
  = count (isEvent Reset) (effects c) ->
  drifts (playbackTimer c) (playbackTimer (state_of (step W i c)))
  /\ drifts (replayDetectionTimer c)
       (replayDetectionTimer (state_of (step W i c))).
Proof.
  intros Hi Hx.
  destruct c as [m tab song pt rt rep en pod eff]; simpl in Hx.
  destruct i as [st| | | | | | | |[]|]; try discriminate Hi; clear Hi;
    compute_model; break; try absurd_case;
    intro Hcount; count_effects; try lia;
    (split; repeat constructor).
Qed.

Lemma run_expired (inputs : list Input) :
  forall c : Controller T,
    expiry_stable T ->
    timer_isExpired (playbackTimer c) = true ->
    forallb (fun i => negb (isRerun i)) inputs = true ->
    count (isEvent Reset) (effects (run W inputs c))
    = count (isEvent Reset) (effects c) ->
    drifts (playbackTimer c) (playbackTimer (run W inputs c))
    /\ drifts (replayDetectionTimer c) (replayDetectionTimer (run W inputs c))
    /\ timer_isExpired (playbackTimer (run W inputs c)) = true.
Proof.
  induction inputs as [|i rest IH]; intros c L Hx Hin Hcount; simpl in *.
  - repeat split; [constructor | constructor | exact Hx].
  - apply andb_true_iff in Hin. destruct Hin as [Hi Hrest].
    apply negb_true_iff in Hi.
    pose proof (step_resets_le i c) as L1.
    pose proof (run_resets_le rest (state_of (step W i c))) as L2.
    assert (E1 : count (isEvent Reset) (effects (state_of (step W i c)))
                 = count (isEvent Reset) (effects c)) by lia.
    destruct (step_expired i c Hi Hx E1) as [D1 D2].
    pose proof (drifts_expired _ _ L D1 Hx) as Hx'.
    destruct (IH (state_of (step W i c)) L Hx' Hrest) as (D3 & D4 & Hx'');
      [lia|].
    repeat split;
      [exact (drifts_trans _ _ _ D1 D3) | exact (drifts_trans _ _ _ D2 D4)
      | exact Hx''].
Qed.

(** C10 (amended).  Once the playback timer is expired, [updateTimers]
    only logs a warning, and a duration update ([updateSongDuration])
    and a pipeline run ([processSong]) leave both timers as they are.
    With a timer that stays expired until it is updated or reset, and
    along any inputs other than [resetSongData] and [setUserSongData]:
    as long as the controller has not reset, both timers are only
    paused, resumed and left to run, never updated, and the playback
    timer is still expired. *)
Theorem expired_timers_not_updated :
  forall c : Controller T,
    timer_isExpired (playbackTimer c) = true ->
    (forall d,
       updateTimers W d c
       = Returned (emit (DebugLog log_expired_timers LogWarn) c)
       /\ timers (state_of (updateSongDuration W d c)) = timers c)
    /\ timers (state_of (processSong W c)) = timers c
    /\ (forall inputs,
          expiry_stable T ->
          forallb (fun i => negb (isRerun i)) inputs = true ->
          count (isEvent Reset) (effects (run W inputs c))
          = count (isEvent Reset) (effects c) ->
          drifts (playbackTimer c) (playbackTimer (run W inputs c))
          /\ drifts (replayDetectionTimer c)
               (replayDetectionTimer (run W inputs c))
          /\ timer_isExpired (playbackTimer (run W inputs c)) = true).
Proof.
  intros c Hx. split; [|split].
  - intro d. destruct (expired_timers_methods c d Hx) as (A & B & _).
    split; assumption.
  - destruct (expired_timers_methods c None Hx) as (_ & _ & C & _). exact C.
  - intros inputs L Hin Hcount. exact (run_expired inputs c L Hx Hin Hcount).
Qed.
End Properties.

(** ** The properties on sample executions *)

Lemma reachable_playing1 : reachable Sample.allOk Sample.playing1.
Proof.
  exists 1, true, [StateChange Sample.state1]. vm_compute. reflexivity.
Qed.

(** C1, as claimed, fails: with one OK result and two failed ones the
    mode becomes [Scrobbled], where the claimed comparison of the
    non-failed with the failed results gives [Err], whether the failed
    results are those that are not OK or those that are errors. *)
Lemma scrobbleSong_mode_counterexample :
  manager_scrobble Sample.partlyFailing
    (effects (Sample.listening Sample.partlyFailing)
     ++ [Scrobble (Sample.songOf (Sample.listening Sample.partlyFailing))])
    (Sample.songOf (Sample.listening Sample.partlyFailing))
  = Sample.oneOkTwoFailed
  /\ mode (state_of (scrobbleSong Sample.partlyFailing
                       (Sample.listening Sample.partlyFailing)))
     = Scrobbled
  /\ claimed_submit_mode (fun r => negb (result_is r RESULT_OK))
       Sample.oneOkTwoFailed = Err
  /\ claimed_submit_mode (fun r => result_is r RESULT_ERROR)
       Sample.oneOkTwoFailed = Err.
Proof. vm_compute. repeat split. Qed.

Lemma scrobbleSong_mode_witness :
  currentSong (Sample.listening Sample.allIgnoring)
  = Some (Sample.songOf (Sample.listening Sample.allIgnoring))
  /\ areAllResults_law Sample.allIgnoring
  /\ mode (state_of (scrobbleSong Sample.allIgnoring
                       (Sample.listening Sample.allIgnoring)))
     = Ignored.
Proof.
  assert (Hs : currentSong (Sample.listening Sample.allIgnoring)
               = Some (Sample.songOf (Sample.listening Sample.allIgnoring)))
    by (vm_compute; reflexivity).
  assert (Hl : areAllResults_law Sample.allIgnoring)
    by (intros r rs t; reflexivity).
  destruct (scrobbleSong_mode Sample.allIgnoring _ _
              [Sample.ignored "lastfm"; Sample.ignored "librefm"]
              Hs eq_refl) as (c' & E & _ & Hi).
  split; [exact Hs | split; [exact Hl|]].
  rewrite E. apply Hi; [exact Hl | discriminate | repeat constructor].
Defined.

(** C2, as claimed, fails: the song is valid and one scrobbler ignores
    it; its id is handed to the scrobble storage, where the claim queues
    nothing. *)
Lemma scrobbleSong_queue_counterexample :
  isValid (Sample.songOf (Sample.listening Sample.partlyIgnoring)) = true
  /\ manager_scrobble Sample.partlyIgnoring
       (effects (Sample.listening Sample.partlyIgnoring)
        ++ [Scrobble (Sample.songOf (Sample.listening Sample.partlyIgnoring))])
       (Sample.songOf (Sample.listening Sample.partlyIgnoring))
     = Sample.oneIgnoredOneOk
  /\ queuedIds (effects (state_of (scrobbleSong Sample.partlyIgnoring
                                     (Sample.listening Sample.partlyIgnoring))))
     = ["lastfm"]
  /\ claimed_queue (Sample.songOf (Sample.listening Sample.partlyIgnoring))
       Sample.oneIgnoredOneOk
     = [].
Proof. vm_compute. repeat split. Qed.

Lemma scrobbleSong_queue_witness :
  currentSong (Sample.listening Sample.partlyFailing)
  = Some (Sample.songOf (Sample.listening Sample.partlyFailing))
  /\ exists c' done,
       scrobbleSong Sample.partlyFailing (Sample.listening Sample.partlyFailing)
       = Returned c'
       /\ effects c' = effects (Sample.listening Sample.partlyFailing) ++ done
       /\ queuedIds done = ["librefm"; "listenbrainz"].
Proof.
  assert (Hs : currentSong (Sample.listening Sample.partlyFailing)
               = Some (Sample.songOf (Sample.listening Sample.partlyFailing)))
    by (vm_compute; reflexivity).
  destruct (scrobbleSong_queue Sample.partlyFailing _ _ Sample.oneOkTwoFailed
              Hs eq_refl) as (c' & done & E & Ee & Hq & _).
  split; [exact Hs|]. exists c', done.
  split; [exact E | split; [exact Ee | exact Hq]].
Defined.

Lemma isSongChanged_identity_fields_witness :
  isSongChanged Sample.state2 Sample.playing1 = true
  /\ isSongChanged Sample.state1_later Sample.playing1
     = isSongChanged Sample.state1 Sample.playing1.
Proof.
  pose proof (isSongChanged_identity_fields Sample.state1 Sample.playing1) as H1.
  pose proof (isSongChanged_identity_fields Sample.state2 Sample.playing1) as H2.
  assert (Hs : currentSong Sample.playing1
               = Some (Sample.songOf Sample.playing1))
    by (vm_compute; reflexivity).
  rewrite Hs in H1, H2.
  destruct H1 as [_ H1]. destruct H2 as [H2 _].
  split.
  - apply H2. right. left. vm_compute. discriminate.
  - apply (H1 Sample.state1_later Sample.playing1 _ Hs);
      vm_compute; repeat split.
Defined.



Lemma processSong_now_playing_witness :
  currentSong Sample.idle1 = Some (Sample.song1 noFlags)
  /\ isValid (pipelined Sample.allOk Sample.idle1 (Sample.song1 noFlags)) = true
  /\ isPlaying (parsed (pipelined Sample.allOk Sample.idle1 (Sample.song1 noFlags)))
     = true
  /\ exists c',
       processSong Sample.allOk Sample.idle1 = Returned c'
       /\ count isSendNowPlaying (effects c') = 1%nat
       /\ count (isEvent SongNowPlaying) (effects c') = 1%nat.
Proof.
  assert (Hs : currentSong Sample.idle1 = Some (Sample.song1 noFlags))
    by reflexivity.
  assert (Hv : isValid (pipelined Sample.allOk Sample.idle1 (Sample.song1 noFlags))
               = true) by reflexivity.
  assert (Hp : negb (shouldScrobblePodcasts Sample.idle1)
               && isPodcast (parsed (pipelined Sample.allOk Sample.idle1
                                       (Sample.song1 noFlags))) = false)
    by reflexivity.
  assert (Hpl : isPlaying (parsed (pipelined Sample.allOk Sample.idle1
                                     (Sample.song1 noFlags))) = true)
    by reflexivity.
  destruct (processSong_now_playing Sample.allOk Sample.idle1 _ Hs Hv Hp Hpl)
    as (c' & E & _ & _ & Hev & Hsend).
  split; [exact Hs | split; [exact Hv | split; [exact Hpl|]]].
  exists c'. split; [exact E|].
  vm_compute in E. injection E as <-.
  vm_compute in Hsend. destruct Hsend as [Hsend _].
  split; [exact Hsend | exact Hev].
Defined.

(** C6, as claimed, fails.  The song is skipped: a state with its
    identity leaves its currentTime and trackArt as they were.  The state
    has the duration 0, not null and not the song's: the duration is not
    written.  The song is not valid: the duration is written and no timer
    is updated. *)
Lemma same_song_state_not_merged :
  (isSongChanged Sample.state1_later Sample.skipped1 = false
   /\ isReplayingSong Sample.skipped1 = false
   /\ currentTime (parsed (Sample.songOf Sample.skipped1)) = Some 0
   /\ processStateChange Sample.allOk Sample.state1_later Sample.skipped1
      = Returned Sample.skipped1)
  /\ (isSongChanged Sample.state1_zero Sample.playing1 = false
      /\ isReplayingSong Sample.playing1 = false
      /\ duration (parsed (Sample.songOf
                             (state_of (processStateChange Sample.allOk
                                          Sample.state1_zero Sample.playing1))))
         = Some 240)
  /\ (isSongChanged Sample.state1_longer Sample.unknown1 = false
      /\ isReplayingSong Sample.unknown1 = false
      /\ duration (parsed (Sample.songOf
                             (state_of (processStateChange Sample.neverValid
                                          Sample.state1_longer Sample.unknown1))))
         = Some 300
      /\ timers (state_of (processStateChange Sample.neverValid
                             Sample.state1_longer Sample.unknown1))
         = timers Sample.unknown1).
Proof. vm_compute. repeat split. Qed.

Lemma same_song_state_merged_witness :
  reachable Sample.allOk Sample.playing1
  /\ currentSong Sample.playing1 = Some (Sample.songOf Sample.playing1)
  /\ util_isStateEmpty Sample.allOk Sample.state1_later = false
  /\ isSongChanged Sample.state1_later Sample.playing1 = false
  /\ isReplayingSong Sample.playing1 = false
  /\ isSkipped (flags (Sample.songOf Sample.playing1)) = false
  /\ exists c' s',
       processStateChange Sample.allOk Sample.state1_later Sample.playing1
       = Returned c'
       /\ currentSong c' = Some s'
       /\ currentTime (parsed s') = Some 10
       /\ trackArt (parsed s') = Some "cover.png".
Proof.
  assert (Hs : currentSong Sample.playing1 = Some (Sample.songOf Sample.playing1))
    by (vm_compute; reflexivity).
  assert (He : util_isStateEmpty Sample.allOk Sample.state1_later = false)
    by (vm_compute; reflexivity).
  assert (Hc : isSongChanged Sample.state1_later Sample.playing1 = false)
    by (vm_compute; reflexivity).
  assert (Hrep : isReplayingSong Sample.playing1 = false)
    by (vm_compute; reflexivity).
  assert (Hsk : isSkipped (flags (Sample.songOf Sample.playing1)) = false)
    by (vm_compute; reflexivity).
  destruct (same_song_state_merged Sample.allOk _ _ Sample.state1_later
              reachable_playing1 Hs He Hc Hrep Hsk)
    as (c' & s' & E & Hs' & Hp & _).
  repeat (split; [assumption|]).
  split; [exact reachable_playing1|].
  repeat (split; [assumption|]).
  exists c', s'.
  split; [exact E | split; [exact Hs' | rewrite Hp; split; reflexivity]].
Defined.

Lemma empty_state_resets_witness :
  reachable Sample.allOk Sample.playing1
  /\ currentSong Sample.playing1 = Some (Sample.songOf Sample.playing1)
  /\ util_isStateEmpty Sample.allOk Sample.emptyState = true
  /\ exists c',
       processStateChange Sample.allOk Sample.emptyState Sample.playing1
       = Returned c'
       /\ mode c' = Base
       /\ currentSong c' = None
       /\ count (isEvent Reset) (effects c')
          = S (count (isEvent Reset) (effects Sample.playing1)).
Proof.
  assert (Hs : currentSong Sample.playing1 = Some (Sample.songOf Sample.playing1))
    by (vm_compute; reflexivity).
  assert (He : util_isStateEmpty Sample.allOk Sample.emptyState = true)
    by (vm_compute; reflexivity).
  destruct (empty_state_resets Sample.allOk _ _ Sample.emptyState
              reachable_playing1 Hs He)
    as (c' & E & Hm & Hn & _ & _ & _ & Heff).
  split; [exact reachable_playing1 | split; [exact Hs | split; [exact He|]]].
  exists c'.
  split; [exact E | split; [exact Hm | split; [exact Hn|]]].
  rewrite Heff. vm_compute. reflexivity.
Defined.

Lemma user_commands_throw_witness :
  (currentSong Sample.idle = None
   /\ skipCurrentSong Sample.idle
      = Thrown (Error_ error_no_song) Sample.idle)
  /\ (isScrobbled (flags (Sample.songOf (Sample.afterExpiry Sample.allOk))) = true
      /\ setUserSongData Sample.allOk Sample.edit1 (Sample.afterExpiry Sample.allOk)
         = Thrown (Error_ error_scrobbled_song)
             (Sample.afterExpiry Sample.allOk))
  /\ (isValid (Sample.songOf Sample.unknown1) = false
      /\ toggleLove Sample.neverValid Loved Sample.unknown1
         = Thrown (Error_ error_no_valid_song) Sample.unknown1).
Proof.
  assert (H0 : currentSong Sample.idle = None) by (vm_compute; reflexivity).
  assert (S1 : currentSong (Sample.afterExpiry Sample.allOk)
               = Some (Sample.songOf (Sample.afterExpiry Sample.allOk)))
    by (vm_compute; reflexivity).
  assert (S2 : isScrobbled (flags (Sample.songOf (Sample.afterExpiry Sample.allOk)))
               = true) by (vm_compute; reflexivity).
  assert (V1 : currentSong Sample.unknown1 = Some (Sample.songOf Sample.unknown1))
    by (vm_compute; reflexivity).
  assert (V2 : isValid (Sample.songOf Sample.unknown1) = false)
    by (vm_compute; reflexivity).
  destruct (user_commands_throw Sample.allOk Sample.idle Sample.edit1 Loved)
    as (A & _ & _).
  destruct (A H0) as (_ & Askip & _ & _).
  destruct (user_commands_throw Sample.allOk (Sample.afterExpiry Sample.allOk)
              Sample.edit1 Loved) as (_ & B & _).
  destruct (user_commands_throw Sample.neverValid Sample.unknown1
              Sample.edit1 Loved) as (_ & _ & C).
  split; [split; [exact H0 | exact Askip]|].
  split; [split; [exact S2 | exact (B _ S1 S2)]|].
  split; [exact V2 | exact (C _ V1 V2)].
Defined.

(** C10, as claimed, fails: the playback timer has expired with the
    targets 120 and 240; the user edits the song; [unprocessSong] clears
    both targets, with no reset. *)
Lemma setUserSongData_clears_expired_timers :
  timer_isExpired
    (playbackTimer (Sample.afterExpiry Sample.failingAndRejectingEdits)) = true
  /\ Sample.target
       (playbackTimer (Sample.afterExpiry Sample.failingAndRejectingEdits))
     = Some 120
  /\ Sample.target
       (replayDetectionTimer (Sample.afterExpiry Sample.failingAndRejectingEdits))
     = Some 240
  /\ Sample.target
       (playbackTimer
          (state_of (setUserSongData Sample.failingAndRejectingEdits Sample.edit1
                       (Sample.afterExpiry Sample.failingAndRejectingEdits))))
     = None
  /\ Sample.target
       (replayDetectionTimer
          (state_of (setUserSongData Sample.failingAndRejectingEdits Sample.edit1
                       (Sample.afterExpiry Sample.failingAndRejectingEdits))))
     = None
  /\ count (isEvent Reset)
       (effects
          (state_of (setUserSongData Sample.failingAndRejectingEdits Sample.edit1
                       (Sample.afterExpiry Sample.failingAndRejectingEdits))))
     = count (isEvent Reset)
         (effects (Sample.afterExpiry Sample.failingAndRejectingEdits)).
Proof. vm_compute. repeat split. Qed.

Lemma sample_timer_expiry_stable : expiry_stable Sample.Timer.
Proof.
  intros [e [tg|] p cb]; simpl; intro H; [|discriminate].
  repeat split; try assumption.
  intro seconds. destruct (cb && negb p); simpl; [|assumption].
  apply Z.leb_le in H. apply Z.leb_le. lia.
Qed.

Lemma expired_timers_not_updated_witness :
  timer_isExpired (playbackTimer (Sample.afterExpiry Sample.allOk)) = true
  /\ expiry_stable Sample.Timer
  /\ forallb (fun i => negb (isRerun i)) Sample.lateInputs = true
  /\ count (isEvent Reset)
       (effects (run Sample.allOk Sample.lateInputs
                   (Sample.afterExpiry Sample.allOk)))
     = count (isEvent Reset) (effects (Sample.afterExpiry Sample.allOk))
  /\ timers (state_of (processSong Sample.allOk (Sample.afterExpiry Sample.allOk)))
     = timers (Sample.afterExpiry Sample.allOk)
  /\ drifts (playbackTimer (Sample.afterExpiry Sample.allOk))
       (playbackTimer (run Sample.allOk Sample.lateInputs
                         (Sample.afterExpiry Sample.allOk))).
Proof.
  assert (Hx : timer_isExpired (playbackTimer (Sample.afterExpiry Sample.allOk))
               = true) by (vm_compute; reflexivity).
  assert (Hin : forallb (fun i => negb (isRerun i)) Sample.lateInputs = true)
    by (vm_compute; reflexivity).
  assert (Hc : count (isEvent Reset)
                 (effects (run Sample.allOk Sample.lateInputs
                             (Sample.afterExpiry Sample.allOk)))
               = count (isEvent Reset)
                   (effects (Sample.afterExpiry Sample.allOk)))
    by (vm_compute; reflexivity).
  destruct (expired_timers_not_updated Sample.allOk _ Hx) as (_ & B & C).
  destruct (C Sample.lateInputs sample_timer_expiry_stable Hin Hc)
    as (D & _ & _).
  split; [exact Hx | split; [exact sample_timer_expiry_stable|]].
  split; [exact Hin | split; [exact Hc | split; [exact B | exact D]]].
Defined.

(** ** Further properties of the controller *)

Section MoreProperties.
Context {T : Type} {timerOps : TimerOps T} (W : Collaborators).


Lemma step_scrobbles (i : Input) (c : Controller T) :
  count isScrobble (effects (state_of (step W i c)))
  = (count isScrobble (effects c) + scrobblesOn i c)%nat.
Proof.
  destruct c as [m tab song pt rt rep en pod eff].
  (destruct i as [st| | | | | | | |[]|];
    cbv [scrobblesOn]; compute_model; break; count_effects; lia).
Qed.

Lemma run_scrobbles (inputs : list Input) :
  forall c : Controller T,
    count isScrobble (effects (run W inputs c))
    = (count isScrobble (effects c) + scrobblesDue W inputs c)%nat.
Proof.
  induction inputs as [|i rest IH]; intro c; simpl; [lia|].
  rewrite IH, step_scrobbles. lia.
Qed.


Lemma step_lastNotifiedMode (i : Input) (c : Controller T) (m0 : ControllerMode) :
  lastNotifiedMode m0 (effects c) = mode c ->
  lastNotifiedMode m0 (effects (state_of (step W i c)))
  = mode (state_of (step W i c)).
Proof.
  destruct c as [m tab song pt rt rep en pod eff].
  cbn [effects mode]. intro Inv.
  destruct i as [st| | | | | | | |[]|];
    compute_model; break;
    rewrite <- ?app_assoc; unfold lastNotifiedMode in *;
    rewrite ?fold_left_app; cbn [fold_left app]; try rewrite Inv; reflexivity.
Qed.

Lemma step_announcesValid (i : Input) (c : Controller T) :
  Forall announcesValid (effects c) ->
  Forall announcesValid (effects (state_of (step W i c))).
Proof.
  destruct c as [m tab song pt rt rep en pod eff].
  cbn [effects]. intro Inv.
  destruct i as [st| | | | | | | |[]|];
    compute_model; break;
    rewrite <- ?app_assoc in *; cbn [app] in *;
    first [ exact Inv
          | apply Forall_app; split; [exact Inv|];
            repeat constructor; cbv [isValid]; song_fields; assumption ].
Qed.


(** X7.  [processSong] on a song calls [onSongUpdated] once and ends
    in the mode [Unknown] (with a [SongUnrecognized] event) when the
    pipeline leaves the song invalid; else [Skipped] for an excluded
    podcast; else [Base] when the song is not playing; else [Playing] or
    [Err] - or still [Loading], when the playback timer is expired and
    no now-playing request is made. *)
Theorem processSong_mode :
  forall (c : Controller T) (s : Song),
    currentSong c = Some s ->
    let s' := pipelined W c s in
    exists c',
      processSong W c = Returned c'
      /\ count isSongUpdated (effects c')
         = S (count isSongUpdated (effects c))
      /\ if isValid s' then
           if negb (shouldScrobblePodcasts c) && isPodcast (parsed s')
           then mode c' = Skipped
           else if isPlaying (parsed s') then
             if timer_isExpired (playbackTimer c') then mode c' = Loading
             else mode c' = Playing \/ mode c' = Err
           else mode c' = Base
         else
           mode c' = Unknown
           /\ count (isEvent SongUnrecognized) (effects c')
              = S (count (isEvent SongUnrecognized) (effects c)).
Proof.
  intros c s Hs s'. subst s'.
  destruct c as [m tab song pt rt rep en pod eff]; simpl in Hs; subst song.
  compute_model. rewrite <- !app_assoc. simpl app.
  remember (pipeline_process W _ s) as s' eqn:Es'. clear Es'.
  break; try absurd_case;
    (eexists; split; [reflexivity|]); cbv beta iota;
    repeat match goal with
           | E : timer_isExpired _ = _ |- _ => rewrite E
           end;
    repeat split; try (left; reflexivity); try (right; reflexivity);
    count_effects; lia.
Qed.

(** X8.  [setSongNowPlaying] flags the song first, sends one request,
    sets the mode [Playing] if some result is OK and [Err] if none is
    (so with no result at all), dispatches [SongNowPlaying] in both
    cases, and leaves the timers alone. *)
Theorem setSongNowPlaying_outcome :
  forall (c : Controller T) (s : Song),
    currentSong c = Some s ->
    let s1 := set_isMarkedAsPlaying true s in
    let results := manager_sendNowPlaying W (effects c ++ [SendNowPlaying s1]) s1 in
    let ok := isAnyResult results RESULT_OK in
    exists c',
      setSongNowPlaying W c = Returned c'
      /\ currentSong c' = Some s1
      /\ mode c' = (if ok then Playing else Err)
      /\ effects c'
         = effects c
           ++ [SendNowPlaying s1;
               DebugLog (if ok then log_now_playing else log_not_now_playing) LogLog;
               OnModeChanged (if ok then Playing else Err);
               OnControllerEvent SongNowPlaying]
      /\ timers c' = timers c
      /\ (results = [] -> mode c' = Err).
Proof.
  intros c s Hs s1 results ok. subst ok results s1.
  destruct c as [m tab song pt rt rep en pod eff]; simpl in Hs; subst song.
  compute_model.
  break; (eexists; split; [reflexivity|]);
    repeat split; rewrite <- ?app_assoc; try reflexivity;
    intro E; rewrite E in *; discriminate.
Qed.

(** X9.  A playing state that is not empty, with a changed identity or
    after a replay was flagged: the outgoing song is handed to the
    scrobble storage if need be, then the controller resets once, makes
    a song of the state with the replay flag it had, clears that flag,
    and runs the pipeline on the song. *)
Theorem new_song_started :
  forall (c : Controller T) (state : ParsedSongInfo),
    isControllerEnabled c = true ->
    util_isStateEmpty W state = false ->
    isSongChanged state c || isReplayingSong c = true ->
    isPlaying state = true ->
    exists c' rest,
      processStateChange W state c = Returned c'
      /\ effects c'
         = effects c ++ outgoingSongAdded W c
           ++ [OnControllerEvent Reset; DebugLog log_new_song LogLog;
               OnModeChanged Loading;
               PipelineProcess
                 (set_isReplaying (isReplayingSong c) (Song_new state))]
           ++ rest
      /\ count (isEvent Reset) rest = 0%nat
      /\ isReplayingSong c' = false
      /\ currentSong c' <> None.
Proof.
  intros c state Hen He Hch Hpl.
  destruct c as [m tab song pt rt rep en pod eff];
    simpl in Hen; subst en.
  cbv [outgoingSongAdded]. compute_model.
  break; try absurd_case;
    rewrite <- ?app_assoc; cbn [app];
    (eexists; eexists; split; [reflexivity|]);
    (split; [reflexivity|]);
    (split; [reflexivity|]); (split; [reflexivity | discriminate]).
Qed.

(** X10.  A state that is not empty and not playing, with a changed
    identity or after a replay was flagged: the controller only resets
    and goes to [Base]; the outgoing song is not handed to the scrobble
    storage, and the replay flag stays as it was. *)
Theorem changed_song_not_playing_resets :
  forall (c : Controller T) (state : ParsedSongInfo),
    isControllerEnabled c = true ->
    util_isStateEmpty W state = false ->
    isSongChanged state c || isReplayingSong c = true ->
    isPlaying state = false ->
    exists c',
      processStateChange W state c = Returned c'
      /\ mode c' = Base
      /\ currentSong c' = None
      /\ timers c'
         = (timer_reset (playbackTimer c), timer_reset (replayDetectionTimer c))
      /\ isReplayingSong c' = isReplayingSong c
      /\ effects c'
         = effects c ++ [OnControllerEvent Reset; OnModeChanged Base].
Proof.
  intros c state Hen He Hch Hpl.
  destruct c as [m tab song pt rt rep en pod eff];
    simpl in Hen; subst en.
  compute_model.
  break; try absurd_case;
    (eexists; split; [reflexivity|]);
    repeat split; rewrite <- ?app_assoc; reflexivity.
Qed.

(** X11.  A state for the current song (not skipped, no replay
    flagged): a now-playing request is sent exactly when the song was
    paused, the state plays, and the song is valid and not yet marked as
    playing; a resuming state notifies the mode once, and when nothing is
    announced the mode is the one before. *)
Theorem resume_announces_unmarked_valid_song :
  forall (c : Controller T) (s : Song) (newState : ParsedSongInfo),
    isControllerEnabled c = true ->
    currentSong c = Some s ->
    util_isStateEmpty W newState = false ->
    isSongChanged newState c = false ->
    isReplayingSong c = false ->
    isSkipped (flags s) = false ->
    let resumed := negb (isPlaying (parsed s)) && isPlaying newState in
    let announce :=
      resumed && negb (isMarkedAsPlaying (flags s)) && isValid s in
    exists c',
      processStateChange W newState c = Returned c'
      /\ count isSendNowPlaying (effects c')
         = (count isSendNowPlaying (effects c) + if announce then 1 else 0)%nat
      /\ count isModeChanged (effects c')
         = (count isModeChanged (effects c) + if resumed then 1 else 0)%nat
      /\ (announce = false -> mode c' = mode c).
Proof.
  intros c s newState Hen Hs He Hc Hrep Hsk resumed announce.
  subst announce resumed.
  destruct c as [m tab song pt rt rep en pod eff];
    simpl in Hs, Hen, Hrep; subst song en rep.
  compute_model.
  break; try absurd_case;
    (eexists; split; [reflexivity|]);
    repeat split; try discriminate; try reflexivity;
    count_effects; lia.
Qed.

(** X12.  [toggleLove] on a valid song asks the scrobble manager
    first: if that fails the error is thrown with the song as it was;
    only otherwise the love status is written and [onSongUpdated]
    called. *)
Theorem toggleLove_records_after_success :
  forall (c : Controller T) (s : Song) (loveStatus : LoveStatus),
    currentSong c = Some s ->
    isValid s = true ->
    let asked := emit (ToggleLove s loveStatus) c in
    toggleLove W loveStatus c
    = if manager_toggleLove_fails W (effects asked) s loveStatus
      then Thrown (Error_ error_toggleLove) asked
      else Returned
             (emit OnSongUpdated
                (with_currentSong (Some (setLoveStatus loveStatus s)) asked)).
Proof.
  intros c s loveStatus Hs Hv asked. subst asked.
  destruct c as [m tab song pt rt rep en pod eff]; simpl in Hs; subst song.
  compute_model. break; try absurd_case; reflexivity.
Qed.

(** X13.  [setEnabled(false)] resets ([Reset], no song, timers reset)
    and notifies the mode [Disabled]; whatever connector states follow
    change nothing and reach no listener. *)
Theorem disabled_controller_ignores_states :
  forall (c : Controller T) (states : list ParsedSongInfo),
    let off := state_of (setEnabled false c) in
    mode off = Disabled
    /\ currentSong off = None
    /\ timers off
       = (timer_reset (playbackTimer c), timer_reset (replayDetectionTimer c))
    /\ effects off
       = effects c ++ [OnControllerEvent Reset; OnModeChanged Disabled]
    /\ run W (map StateChange states) off = off.
Proof.
  intros c states off. subst off.
  destruct c as [m tab song pt rt rep en pod eff].
  repeat split; try (compute_model; rewrite <- ?app_assoc; reflexivity).
  induction states as [|st rest IH]; [reflexivity|].
  cbn [map run]. rewrite <- IH at 2. f_equal.
Qed.

(** X14.  After the replay timer fired, the next playing state that is
    not empty starts a new song, flagged as replaying, even with the
    identity of the current one: one reset, one pipeline run on the new
    song, and the replay flag of the controller is cleared. *)
Theorem replayed_song_is_new_song :
  forall (c : Controller T) (state : ParsedSongInfo),
    isControllerEnabled c = true ->
    util_isStateEmpty W state = false ->
    isPlaying state = true ->
    let c' := run W [ReplayTimerExpired; StateChange state] c in
    count (isEvent Reset) (effects c') = S (count (isEvent Reset) (effects c))
    /\ In (PipelineProcess (set_isReplaying true (Song_new state))) (effects c')
    /\ isReplayingSong c' = false
    /\ currentSong c' <> None.
Proof.
  intros c state Hen He Hpl c'. subst c'.
  destruct c as [m tab song pt rt rep en pod eff];
    simpl in Hen; subst en.
  compute_model.
  break; try absurd_case;
    rewrite <- ?app_assoc; cbn [app];
    repeat split; try discriminate;
    try (count_effects; lia);
    apply in_or_app; right; cbn [In]; auto 12.
Qed.

(** X15.  [resetSongData], and [setUserSongData] on a song that is not
    scrobbled, return; they tell [SavedEdits], log, and run the pipeline
    exactly once, on the song as [resetData] leaves it, without a reset
    and keeping a song. *)
Theorem user_command_reruns_pipeline :
  forall (c : Controller T) (s : Song) (data : EditedSongInfo),
    currentSong c = Some s ->
    (exists c' rest,
       resetSongData W c = Returned c'
       /\ effects c'
          = effects c
            ++ [SavedEditsRemove (song_resetInfo W s);
                DebugLog log_unprocessed LogLog;
                DebugLog log_clearing_timer LogLog;
                OnModeChanged Loading;
                PipelineProcess (song_resetData W (song_resetInfo W s))]
            ++ rest
       /\ count isPipelineProcess rest = 0%nat
       /\ count (isEvent Reset) rest = 0%nat
       /\ currentSong c' <> None)
    /\ (isScrobbled (flags s) = false ->
        exists c' rest,
          setUserSongData W data c = Returned c'
          /\ effects c'
             = effects c
               ++ [SavedEditsSave s data;
                   DebugLog log_unprocessed LogLog;
                   DebugLog log_clearing_timer LogLog;
                   OnModeChanged Loading;
                   PipelineProcess (song_resetData W s)]
               ++ rest
          /\ count isPipelineProcess rest = 0%nat
          /\ count (isEvent Reset) rest = 0%nat
          /\ currentSong c' <> None).
Proof.
  intros c s data Hs.
  destruct c as [m tab song pt rt rep en pod eff]; simpl in Hs; subst song.
  split; [|intro Hsc];
    compute_model;
    break; try absurd_case;
    rewrite <- ?app_assoc; cbn [app];
    (eexists; eexists; split; [reflexivity|]);
    (split; [reflexivity|]);
    (split; [reflexivity|]);
    (split; [reflexivity|]); discriminate.
Qed.



(** X2.  In every state a controller can be in, the mode is the one
    [onModeChanged] showed last (the initial one if it was never
    called): no mode is set without the listener being told. *)
Theorem notified_mode_is_current :
  forall (tab : Z) (isEnabled : bool) (inputs : list Input),
    let c : Controller T := run W inputs (Controller_new W tab isEnabled) in
    lastNotifiedMode (if isEnabled then Base else Disabled) (effects c) = mode c.
Proof.
  intros tab en inputs c. subst c.
  generalize (Controller_new (T:=T) W tab en)
    (eq_refl : lastNotifiedMode (if en then Base else Disabled)
                 (effects (Controller_new (T:=T) W tab en))
               = mode (Controller_new (T:=T) W tab en)).
  induction inputs as [|i rest IH]; intros c Inv; simpl; [exact Inv|].
  apply IH, step_lastNotifiedMode, Inv.
Qed.

Lemma scrobblesDue_le (inputs : list Input) :
  forall c : Controller T,
    (scrobblesDue W inputs c
     <= List.length (filter isPlaybackTimerExpired inputs))%nat.
Proof.
  induction inputs as [|i rest IH]; intro c; [cbn; lia|].
  cbn [scrobblesDue filter].
  specialize (IH (state_of (step W i c))).
  assert (H : (scrobblesOn i c <= if isPlaybackTimerExpired i then 1 else 0)%nat).
  { unfold scrobblesOn.
    destruct i; cbn [isPlaybackTimerExpired]; try lia.
    destruct (currentSong c) as [s|]; [destruct (isSkipped (flags s))|]; lia. }
  destruct (isPlaybackTimerExpired i); cbn [List.length]; lia.
Qed.

(** X4.  Along any inputs, the scrobble requests are exactly those due
    when the playback timer fires on a song that is not skipped: one per
    such callback, and none for any other input. *)
Theorem scrobble_only_on_timer_expiry :
  forall (inputs : list Input) (c : Controller T),
    count isScrobble (effects (run W inputs c))
    = (count isScrobble (effects c) + scrobblesDue W inputs c)%nat
    /\ (scrobblesDue W inputs c
        <= List.length (filter isPlaybackTimerExpired inputs))%nat.
Proof.
  intros inputs c. split; [apply run_scrobbles | apply scrobblesDue_le].
Qed.

(** X5.  In every state a controller can be in, each now-playing
    request made so far was for a valid song, flagged as marked before
    the request. *)
Theorem now_playing_only_for_valid_songs :
  forall (tab : Z) (isEnabled : bool) (inputs : list Input),
    Forall announcesValid
      (effects (run W inputs (Controller_new (T:=T) W tab isEnabled))).
Proof.
  intros tab en inputs.
  assert (H0 : Forall announcesValid (effects (Controller_new (T:=T) W tab en)))
    by (repeat constructor).
  revert H0. generalize (Controller_new (T:=T) W tab en).
  induction inputs as [|i rest IH]; intros c Inv; simpl; [exact Inv|].
  apply IH, step_announcesValid, Inv.
Qed.


End MoreProperties.

Lemma processSong_mode_witness :
  currentSong Sample.idle1 = Some (Sample.song1 noFlags)
  /\ exists c',
       processSong Sample.allOk Sample.idle1 = Returned c'
       /\ mode c' = Playing
       /\ count isSongUpdated (effects c') = 1%nat.
Proof.
  assert (Hs : currentSong Sample.idle1 = Some (Sample.song1 noFlags))
    by (vm_compute; reflexivity).
  destruct (processSong_mode Sample.allOk Sample.idle1 _ Hs)
    as (c' & E & Hu & Hm).
  split; [exact Hs|]. exists c'. split; [exact E|].
  vm_compute in E. injection E as <-.
  split; [vm_compute; reflexivity | exact Hu].
Defined.

Lemma setSongNowPlaying_outcome_witness :
  currentSong Sample.unknown1 = Some (Sample.songOf Sample.unknown1)
  /\ exists c',
       setSongNowPlaying Sample.neverValid Sample.unknown1 = Returned c'
       /\ mode c' = Playing
       /\ timers c' = timers Sample.unknown1.
Proof.
  assert (Hs : currentSong Sample.unknown1 = Some (Sample.songOf Sample.unknown1))
    by (vm_compute; reflexivity).
  destruct (setSongNowPlaying_outcome Sample.neverValid Sample.unknown1 _ Hs)
    as (c' & E & _ & Hm & _ & Ht & _).
  split; [exact Hs|]. exists c'.
  split; [exact E | split; [exact Hm | exact Ht]].
Defined.

Lemma new_song_started_witness :
  isControllerEnabled Sample.playing1 = true
  /\ util_isStateEmpty Sample.allOk Sample.state2 = false
  /\ isSongChanged Sample.state2 Sample.playing1
     || isReplayingSong Sample.playing1 = true
  /\ isPlaying Sample.state2 = true
  /\ exists c',
       processStateChange Sample.allOk Sample.state2 Sample.playing1
       = Returned c'
       /\ isReplayingSong c' = false
       /\ currentSong c' <> None.
Proof.
  assert (H1 : isControllerEnabled Sample.playing1 = true)
    by (vm_compute; reflexivity).
  assert (H2 : util_isStateEmpty Sample.allOk Sample.state2 = false)
    by (vm_compute; reflexivity).
  assert (H3 : isSongChanged Sample.state2 Sample.playing1
               || isReplayingSong Sample.playing1 = true)
    by (vm_compute; reflexivity).
  assert (H4 : isPlaying Sample.state2 = true) by (vm_compute; reflexivity).
  destruct (new_song_started Sample.allOk Sample.playing1 Sample.state2
              H1 H2 H3 H4) as (c' & rest & E & _ & _ & Hr & Hs).
  split; [exact H1 | split; [exact H2 | split; [exact H3 | split; [exact H4|]]]].
  exists c'. split; [exact E | split; [exact Hr | exact Hs]].
Defined.

Lemma changed_song_not_playing_resets_witness :
  isControllerEnabled Sample.playing1 = true
  /\ util_isStateEmpty Sample.allOk Scenario.state2_paused = false
  /\ isSongChanged Scenario.state2_paused Sample.playing1
     || isReplayingSong Sample.playing1 = true
  /\ isPlaying Scenario.state2_paused = false
  /\ exists c',
       processStateChange Sample.allOk Scenario.state2_paused Sample.playing1
       = Returned c'
       /\ mode c' = Base
       /\ currentSong c' = None.
Proof.
  assert (H1 : isControllerEnabled Sample.playing1 = true)
    by (vm_compute; reflexivity).
  assert (H2 : util_isStateEmpty Sample.allOk Scenario.state2_paused = false)
    by (vm_compute; reflexivity).
  assert (H3 : isSongChanged Scenario.state2_paused Sample.playing1
               || isReplayingSong Sample.playing1 = true)
    by (vm_compute; reflexivity).
  assert (H4 : isPlaying Scenario.state2_paused = false)
    by (vm_compute; reflexivity).
  destruct (changed_song_not_playing_resets Sample.allOk Sample.playing1
              Scenario.state2_paused H1 H2 H3 H4)
    as (c' & E & Hm & Hs & _).
  split; [exact H1 | split; [exact H2 | split; [exact H3 | split; [exact H4|]]]].
  exists c'. split; [exact E | split; [exact Hm | exact Hs]].
Defined.

Lemma resume_announces_unmarked_valid_song_witness :
  isControllerEnabled Scenario.paused1 = true
  /\ currentSong Scenario.paused1 = Some (Sample.songOf Scenario.paused1)
  /\ util_isStateEmpty Sample.allOk Sample.state1_later = false
  /\ isSongChanged Sample.state1_later Scenario.paused1 = false
  /\ isReplayingSong Scenario.paused1 = false
  /\ isSkipped (flags (Sample.songOf Scenario.paused1)) = false
  /\ exists c',
       processStateChange Sample.allOk Sample.state1_later Scenario.paused1
       = Returned c'
       /\ count isSendNowPlaying (effects c')
          = count isSendNowPlaying (effects Scenario.paused1)
       /\ count isModeChanged (effects c')
          = S (count isModeChanged (effects Scenario.paused1))
       /\ mode c' = mode Scenario.paused1.
Proof.
  assert (H1 : isControllerEnabled Scenario.paused1 = true)
    by (vm_compute; reflexivity).
  assert (H2 : currentSong Scenario.paused1
               = Some (Sample.songOf Scenario.paused1))
    by (vm_compute; reflexivity).
  assert (H3 : util_isStateEmpty Sample.allOk Sample.state1_later = false)
    by (vm_compute; reflexivity).
  assert (H4 : isSongChanged Sample.state1_later Scenario.paused1 = false)
    by (vm_compute; reflexivity).
  assert (H5 : isReplayingSong Scenario.paused1 = false)
    by (vm_compute; reflexivity).
  assert (H6 : isSkipped (flags (Sample.songOf Scenario.paused1)) = false)
    by (vm_compute; reflexivity).
  destruct (resume_announces_unmarked_valid_song Sample.allOk Scenario.paused1
              _ Sample.state1_later H1 H2 H3 H4 H5 H6)
    as (c' & E & Ha & Hn & Hm).
  split; [exact H1 | split; [exact H2 | split; [exact H3|]]].
  split; [exact H4 | split; [exact H5 | split; [exact H6|]]].
  exists c'. split; [exact E|].
  split; [rewrite Ha; vm_compute; reflexivity|].
  split; [rewrite Hn; vm_compute; reflexivity|].
  apply Hm. vm_compute. reflexivity.
Defined.

Lemma toggleLove_records_after_success_witness :
  currentSong Sample.playing1 = Some (Sample.songOf Sample.playing1)
  /\ isValid (Sample.songOf Sample.playing1) = true
  /\ userloved (Sample.songOf (state_of (toggleLove Sample.allOk Loved
                                          Sample.playing1)))
     = Some Loved.
Proof.
  assert (H1 : currentSong Sample.playing1 = Some (Sample.songOf Sample.playing1))
    by (vm_compute; reflexivity).
  assert (H2 : isValid (Sample.songOf Sample.playing1) = true)
    by (vm_compute; reflexivity).
  split; [exact H1 | split; [exact H2|]].
  rewrite (toggleLove_records_after_success Sample.allOk _ _ Loved H1 H2).
  vm_compute. reflexivity.
Defined.

Lemma replayed_song_is_new_song_witness :
  isControllerEnabled Sample.playing1 = true
  /\ util_isStateEmpty Sample.allOk Sample.state1_later = false
  /\ isPlaying Sample.state1_later = true
  /\ isSongChanged Sample.state1_later Sample.playing1 = false
  /\ count (isEvent Reset)
       (effects (run Sample.allOk
                   [ReplayTimerExpired; StateChange Sample.state1_later]
                   Sample.playing1))
     = S (count (isEvent Reset) (effects Sample.playing1)).
Proof.
  assert (H1 : isControllerEnabled Sample.playing1 = true)
    by (vm_compute; reflexivity).
  assert (H2 : util_isStateEmpty Sample.allOk Sample.state1_later = false)
    by (vm_compute; reflexivity).
  assert (H3 : isPlaying Sample.state1_later = true)
    by (vm_compute; reflexivity).
  destruct (replayed_song_is_new_song Sample.allOk Sample.playing1
              Sample.state1_later H1 H2 H3) as (A & _).
  split; [exact H1 | split; [exact H2 | split; [exact H3|]]].
  split; [vm_compute; reflexivity | exact A].
Defined.

Lemma user_command_reruns_pipeline_witness :
  currentSong Sample.playing1 = Some (Sample.songOf Sample.playing1)
  /\ isScrobbled (flags (Sample.songOf Sample.playing1)) = false
  /\ (exists c', resetSongData Sample.allOk Sample.playing1 = Returned c'
                 /\ currentSong c' <> None)
  /\ (exists c', setUserSongData Sample.allOk Sample.edit1 Sample.playing1
                 = Returned c'
                 /\ currentSong c' <> None).
Proof.
  assert (H1 : currentSong Sample.playing1 = Some (Sample.songOf Sample.playing1))
    by (vm_compute; reflexivity).
  assert (H2 : isScrobbled (flags (Sample.songOf Sample.playing1)) = false)
    by (vm_compute; reflexivity).
  destruct (user_command_reruns_pipeline Sample.allOk Sample.playing1 _
              Sample.edit1 H1) as [A B].
  destruct A as (c1 & r1 & E1 & _ & _ & _ & N1).
  destruct (B H2) as (c2 & r2 & E2 & _ & _ & _ & N2).
  split; [exact H1 | split; [exact H2|]].
  split; [exists c1 | exists c2]; split; assumption.
Defined.

